(** * mcp-server-fvwm3: capability catalogs and request dispatch

    A shallow embedding of [src/resources.ts] (resources), [tools.ts]
    (tools) and [prompts.ts] (prompt templates), together with the
    properties of the dispatch layer: which failures are thrown, which are
    folded into a result envelope, and what the template renderer and the
    configuration checker compute.

    Conventions of the embedding.
    - A JavaScript string is a [string]; every [ascii] is one code unit
      (code units below 256).
    - Values that arrive as tool or prompt arguments are JSON values
      ([JsVal]); a number is kept as what the handlers ask of it, its truth
      value and its rendering as text.
    - [async]/[await] is sequential composition in the monad [M]; a rejected
      promise and a [throw] are both the outcome [Throw].
    - File reads and process executions are answered by the [Host]; every
      such call is appended to a trace.
    - [os.homedir], [path.join] and [JSON.stringify] belong to the runtime
      and are fields of the [Host]. *)

From Stdlib Require Import String Ascii List Bool Arith Lia.
From Stdlib Require Import DecimalString.
Import ListNotations.
Open Scope string_scope.

(* ------------------------------------------------------------------ *)
(** ** Strings *)

Module Str.

(** The double-quote character and the line feed, as one-character strings. *)
Definition dq : string := String "034"%char EmptyString.
Definition nl : string := String "010"%char EmptyString.
Definition bs : string := String "092"%char EmptyString.

(** White space as [String.prototype.trim] and the regular expression
    class [\s] see it, for code units below 256: TAB, LF, VT, FF, CR,
    SPACE and NO-BREAK SPACE. *)
Definition is_ws (c : ascii) : bool :=
  let n := nat_of_ascii c in
  ((9 <=? n)%nat && (n <=? 13)%nat) || (n =? 32)%nat || (n =? 160)%nat.

Fixpoint trimStart (s : string) : string :=
  match s with
  | EmptyString => EmptyString
  | String c r => if is_ws c then trimStart r else s
  end.

Fixpoint trimEnd (s : string) : string :=
  match s with
  | EmptyString => EmptyString
  | String c r =>
      match trimEnd r with
      | EmptyString => if is_ws c then EmptyString else String c EmptyString
      | r' => String c r'
      end
  end.

(** [s.trim()] *)
Definition trim (s : string) : string := trimEnd (trimStart s).

(** [s.split(sep)] for a one-character separator: never empty. *)
Fixpoint split (sep : ascii) (s : string) : list string :=
  match s with
  | EmptyString => [EmptyString]
  | String c r =>
      if Ascii.eqb c sep then EmptyString :: split sep r
      else match split sep r with
           | p :: ps => String c p :: ps
           | [] => [String c EmptyString]
           end
  end.

(** [xs.join(sep)] *)
Definition join (sep : string) (xs : list string) : string :=
  String.concat sep xs.

(** [s.startsWith(p)] *)
Fixpoint startsWith (s p : string) : bool :=
  match p, s with
  | EmptyString, _ => true
  | String _ _, EmptyString => false
  | String a p', String b s' => Ascii.eqb a b && startsWith s' p'
  end.

(** [s.includes(p)] *)
Fixpoint includes (s p : string) : bool :=
  startsWith s p ||
  match s with
  | EmptyString => false
  | String _ r => includes r p
  end.

(** [(s.match(/c/g) || []).length] for a one-character pattern. *)
Fixpoint count (c : ascii) (s : string) : nat :=
  match s with
  | EmptyString => 0%nat
  | String a r => ((if Ascii.eqb a c then 1 else 0) + count c r)%nat
  end.

(** [s.replace] of every double quote by a backslash and a double quote. *)
Fixpoint escape_quotes (s : string) : string :=
  match s with
  | EmptyString => EmptyString
  | String c r =>
      if Ascii.eqb c "034"%char
      then String "092"%char (String c (escape_quotes r))
      else String c (escape_quotes r)
  end.

(** [s] minus the prefix [p], when [s] starts with [p]. *)
Fixpoint strip_prefix (p s : string) : option string :=
  match p, s with
  | EmptyString, _ => Some s
  | String _ _, EmptyString => None
  | String a p', String b s' =>
      if Ascii.eqb a b then strip_prefix p' s' else None
  end.

(** A string is truthy when it is not empty. *)
Definition nonempty (s : string) : bool :=
  match s with EmptyString => false | _ => true end.

(** [a || b] on strings. *)
Definition or_else (a b : string) : string := if nonempty a then a else b.

(** Decimal rendering of an array length or index. *)
Definition of_nat (n : nat) : string := NilZero.string_of_uint (Nat.to_uint n).

End Str.

(* ------------------------------------------------------------------ *)
(** ** JavaScript values, errors and the host *)

(** The values a request can carry: JSON values, and [undefined] for a
    property that is absent.  A number is a double; the handlers only ask
    whether it is truthy (neither zero nor NaN) and how it renders as text,
    so [VNum nonzero text] keeps these two answers: the number 50 is
    [VNum true "50"], zero is [VNum false "0"].  An object is the list of
    its own properties; its prototype is the plain one. *)
Unset Elimination Schemes.
Inductive JsVal : Type :=
| VUndefined
| VNull
| VBool (b : bool)
| VNum (nonzero : bool) (text : string)
| VStr (s : string)
| VArr (xs : list JsVal)
| VObj (fields : list (string * JsVal)).
Set Elimination Schemes.

(** An argument mapping.  A key is read at its first binding. *)
Definition Obj := list (string * JsVal).

(** The own property [k] of [o]: what [o.k] and [const { k } = o] give for
    a name that the plain prototype does not define. *)
Fixpoint get (o : Obj) (k : string) : JsVal :=
  match o with
  | [] => VUndefined
  | (k', v) :: rest => if String.eqb k' k then v else get rest k
  end.

(** The own property [k] of [o] becomes the string [s]. *)
Fixpoint put (o : Obj) (k : string) (s : string) : Obj :=
  match o with
  | [] => [(k, VStr s)]
  | (k', v') :: rest =>
      if String.eqb k' k then (k', VStr s) :: rest else (k', v') :: put rest k s
  end.

(** [o[k] = s] for a string [s] on a plain object.  The name [__proto__]
    is the accessor of the prototype, which ignores a string: no property
    is created. *)
Definition set (o : Obj) (k : string) (s : string) : Obj :=
  if String.eqb k "__proto__" then o else put o k s.

(** ToBoolean *)
Definition truthy (v : JsVal) : bool :=
  match v with
  | VUndefined | VNull => false
  | VBool b => b
  | VNum nonzero _ => nonzero
  | VStr s => Str.nonempty s
  | VArr _ | VObj _ => true
  end.

(** The object has an own property [k]. *)
Definition has_own (fields : list (string * JsVal)) (k : string) : bool :=
  existsb (fun kv => String.eqb (fst kv) k) fields.

(** All the texts, unless one is missing. *)
Fixpoint all_texts (xs : list (option string)) : option (list string) :=
  match xs with
  | [] => Some []
  | Some x :: rest => option_map (cons x) (all_texts rest)
  | None :: _ => None
  end.

(** ToString, as a template literal and [String.prototype.includes] apply
    it; [None] where the conversion throws.  An array joins the texts of
    its elements with commas, [null] and [undefined] counting as empty.
    An object is [[object Object]] by the inherited [toString]; an own
    property [toString] hides that method, it is never a function in a
    JSON value, and the conversion throws. *)
Fixpoint toString (v : JsVal) : option string :=
  match v with
  | VUndefined => Some "undefined"
  | VNull => Some "null"
  | VBool true => Some "true"
  | VBool false => Some "false"
  | VNum _ text => Some text
  | VStr s => Some s
  | VArr xs =>
      option_map (Str.join ",")
        (all_texts
           (map (fun x => match x with
                          | VUndefined | VNull => Some EmptyString
                          | _ => toString x
                          end) xs))
  | VObj fields =>
      if has_own fields "toString" then None else Some "[object Object]"
  end.

(** The text of a value for a message of the examples. *)
Definition sketch (v : JsVal) : string :=
  match toString v with
  | Some s => s
  | None => EmptyString
  end.

(** [a || b] on values. *)
Definition val_or (a b : JsVal) : JsVal := if truthy a then a else b.

(** A thrown error object: its [name], its [message] and, for a failed
    process, the [stderr] property. *)
Record JsError : Type := mkJsError {
  ename : string;
  emessage : string;
  estderr : option string
}.

(** [new Error(msg)] *)
Definition Error (msg : string) : JsError :=
  {| ename := "Error"; emessage := msg; estderr := None |}.

(** The runtime's [TypeError]. *)
Definition TypeError (msg : string) : JsError :=
  {| ename := "TypeError"; emessage := msg; estderr := None |}.

(** [`${error}`], that is [Error.prototype.toString]. *)
Definition error_toString (e : JsError) : string :=
  match ename e, emessage e with
  | EmptyString, m => m
  | n, EmptyString => n
  | n, m => n ++ ": " ++ m
  end.

(** How the runtime words [v.method(...)] when [v] has no such method. *)
Definition no_method (var method : string) (v : JsVal) : JsError :=
  match v with
  | VUndefined | VNull =>
      TypeError ("Cannot read properties of " ++
                 (match v with VNull => "null" | _ => "undefined" end) ++
                 " (reading '" ++ method ++ "')")
  | _ => TypeError (var ++ "." ++ method ++ " is not a function")
  end.

(** How [path.join] words the rejection of an argument that is no string. *)
Definition bad_path (v : JsVal) : JsError :=
  {| ename := "TypeError [ERR_INVALID_ARG_TYPE]";
     emessage :=
       "The " ++ Str.dq ++ "path" ++ Str.dq ++
       " argument must be of type string. Received " ++
       match v with
       | VUndefined => "undefined"
       | VNull => "null"
       | VBool b => "type boolean (" ++ (if b then "true" else "false") ++ ")"
       | VNum _ text => "type number (" ++ text ++ ")"
       | VStr _ => "type string"
       | VArr _ => "an instance of Array"
       | VObj _ => "an instance of Object"
       end;
     estderr := None |}.

(** The two adapters: one file read, one process execution. *)
Inductive Call : Type :=
| ReadFile (path : JsVal)
| Exec (cmd : string).

Inductive Outcome (A : Type) : Type :=
| Return (a : A)
| Throw (e : JsError).
Arguments Return {A} a.
Arguments Throw {A} e.

(** What the program runs on.  The adapters answer a call knowing the calls
    made before it, so the files and the window manager may change while a
    request is served. *)
Record Host : Type := mkHost {
  os_homedir : string;
  path_join : string -> string -> string;
  JSON_stringify : JsVal -> string;
  fs_readFile : list Call -> JsVal -> Outcome string;
  child_exec : list Call -> string -> Outcome (string * string)
}.

(** ** The monad of handlers: reads the host, logs adapter calls, may throw *)

Definition M (A : Type) : Type := Host -> list Call -> Outcome A * list Call.

Definition ret {A} (a : A) : M A := fun _ tr => (Return a, tr).

Definition throw {A} (e : JsError) : M A := fun _ tr => (Throw e, tr).

Definition bind {A B} (m : M A) (k : A -> M B) : M B :=
  fun h tr =>
    match m h tr with
    | (Return a, tr') => k a h tr'
    | (Throw e, tr') => (Throw e, tr')
    end.

(** [try { m } catch (error) { handler error }] *)
Definition try_catch {A} (m : M A) (handler : JsError -> M A) : M A :=
  fun h tr =>
    match m h tr with
    | (Return a, tr') => (Return a, tr')
    | (Throw e, tr') => handler e h tr'
    end.

Declare Scope js_scope.
Delimit Scope js_scope with js.
Notation "x <- m ;; k" := (bind m (fun x => k))
  (at level 100, m at next level, right associativity) : js_scope.
Notation "' p <- m ;; k" := (bind m (fun x => let 'p := x in k))
  (at level 100, p pattern, m at next level, right associativity) : js_scope.
Open Scope js_scope.

(** The error of a conversion to text that throws. *)
Definition cannot_convert : JsError :=
  TypeError "Cannot convert object to primitive value".

(** [`${v}`]: the text of [v], or the [TypeError] of the conversion. *)
Definition render (v : JsVal) : M string :=
  match toString v with
  | Some s => ret s
  | None => throw cannot_convert
  end.

(** [homedir()] *)
Definition homedir : M string := fun h tr => (Return (os_homedir h), tr).

(** [path.join(a, b)] on two strings. *)
Definition pathJoin (a b : string) : M string :=
  fun h tr => (Return (path_join h a b), tr).

(** [path.join(a, v)] where [v] is whatever the request carried. *)
Definition pathJoinVal (a : string) (v : JsVal) : M string :=
  match v with
  | VStr b => pathJoin a b
  | _ => throw (bad_path v)
  end.

(** [JSON.stringify(v, null, 2)] *)
Definition stringify (v : JsVal) : M string :=
  fun h tr => (Return (JSON_stringify h v), tr).

(** [await readFile(p, "utf-8")] *)
Definition readFile (p : JsVal) : M string :=
  fun h tr => (fs_readFile h tr p, (tr ++ [ReadFile p])%list).

(** [await execAsync(cmd)], giving [(stdout, stderr)]. *)
Definition execAsync (cmd : string) : M (string * string) :=
  fun h tr => (child_exec h tr cmd, (tr ++ [Exec cmd])%list).

(** [v === s] for a string literal [s]. *)
Definition strict_eq (v : JsVal) (s : string) : bool :=
  match v with
  | VStr s' => String.eqb s' s
  | _ => false
  end.

(** [xs.push(x)] *)
Definition push {A} (xs : list A) (x : A) : list A := (xs ++ [x])%list.

(** [switch (x) { case k: ...; default: ... }] where every case leaves the
    function. *)
Fixpoint switch {A} (x : string) (cases : list (string * A)) (default : A) : A :=
  match cases with
  | [] => default
  | (k, body) :: rest => if String.eqb x k then body else switch x rest default
  end.

(* ------------------------------------------------------------------ *)
(** ** tools.ts *)

Module Tools.

Record PropertySchema : Type := {
  ptype : string;
  penum : option (list string);
  pdescription : string
}.

Record InputSchema : Type := {
  stype : string;
  properties : list (string * PropertySchema);
  required : option (list string)
}.

Record ToolDescriptor : Type := {
  name : string;
  description : string;
  inputSchema : InputSchema
}.

Definition prop (ty descr : string) : PropertySchema :=
  {| ptype := ty; penum := None; pdescription := descr |}.

Definition object (props : list (string * PropertySchema))
           (req : option (list string)) : InputSchema :=
  {| stype := "object"; properties := props; required := req |}.

(** List of all available tools *)
Definition getTools : list ToolDescriptor :=
  [ {| name := "fvwm_execute";
       description := "Execute an FVWM command using FvwmCommand";
       inputSchema :=
         object
           [("command",
             prop "string"
               "The FVWM command to execute (e.g., 'Restart', 'Move 100p 100p')")]
           (Some ["command"]) |};
    {| name := "fvwm_get_window_info";
       description :=
         "Get detailed information about a specific window or all windows";
       inputSchema :=
         object
           [("window_id",
             prop "string"
               "Window ID in hex format (e.g., '0x9200005'). If not provided, returns all windows.")]
           None |};
    {| name := "fvwm_get_monitor_layout";
       description := "Get current monitor layout and geometry from xrandr";
       inputSchema := object [] None |};
    {| name := "fvwm_test_function";
       description :=
         "Check if a specific FVWM function exists in the configuration";
       inputSchema :=
         object
           [("function_name",
             prop "string"
               "Name of the FVWM function to check (e.g., 'SmartTileLeft')")]
           (Some ["function_name"]) |};
    {| name := "fvwm_restart";
       description := "Restart FVWM3 to apply configuration changes";
       inputSchema := object [] None |};
    {| name := "fvwm_validate_config";
       description := "Validate FVWM3 configuration syntax without restarting";
       inputSchema :=
         object
           [("config_path",
             prop "string"
               "Path to config file to validate. Defaults to ~/.fvwm/config")]
           None |};
    {| name := "fvwm_get_keybindings";
       description := "List all keyboard bindings from the configuration";
       inputSchema :=
         object
           [("filter",
             prop "string"
               "Optional filter string to search for specific bindings")]
           None |};
    {| name := "smart_tile_debug";
       description := "View the smart tiling debug log (last N lines)";
       inputSchema :=
         object
           [("lines",
             prop "number"
               "Number of lines to retrieve from the end of the log. Default: 50")]
           None |};
    {| name := "smart_tile_state";
       description := "View or clear smart tiling state for windows";
       inputSchema :=
         object
           [("action",
             {| ptype := "string";
                penum := Some ["view"; "clear"];
                pdescription :=
                  "Action to perform: 'view' to see states, 'clear' to reset all states" |});
            ("window_id",
             prop "string"
               "Optional window ID to view/clear specific window state")]
           (Some ["action"]) |};
    {| name := "fvwm_get_desktop_info";
       description := "Get information about the current desktop and page";
       inputSchema := object [] None |} ].

(** One content block and the result envelope of a tool call; [isError]
    is [None] where the source leaves the property out. *)
Record ContentBlock : Type := { type : string; text : string }.

Record Envelope : Type := {
  content : list ContentBlock;
  isError : option bool
}.

(** [{ content: [{ type: "text", text: t }] }] *)
Definition text_result (t : string) : Envelope :=
  {| content := [ {| type := "text"; text := t |} ]; isError := None |}.

(** [error.stderr && error.stderr.trim()] as a condition. *)
Definition stderr_nonblank (error : JsError) : bool :=
  match estderr error with
  | None => false
  | Some s => Str.nonempty s && Str.nonempty (Str.trim s)
  end.

(** [command.replace], which only a string has. *)
Definition command_replace (command : JsVal) : M string :=
  match command with
  | VStr s => ret (Str.escape_quotes s)
  | _ => throw (no_method "command" "replace" command)
  end.

Definition fvwm_execute (args : Obj) : M Envelope :=
  let command := get args "command" in
  try_catch
    (escaped <- command_replace command ;;
     '(stdout, stderr) <-
        execAsync ("FvwmCommand " ++ Str.dq ++ escaped ++ Str.dq) ;;
     ret (text_result
            (Str.or_else (Str.or_else stdout stderr)
               "Command executed successfully")))
    (fun error =>
       (* FvwmCommand may return non-zero exit code even when command
          succeeds: check if the error contains actual error message *)
       if stderr_nonblank error then throw error
       else ret (text_result "Command executed (no output)")).

Definition window_fields : string :=
  " class=$[w.class] desk=$[w.desk] x=$[w.x] y=$[w.y] w=$[w.width] h=$[w.height]".

Definition fvwm_get_window_info (args : Obj) : M Envelope :=
  let window_id := get args "window_id" in
  cmd <-
    (if truthy window_id then
       w <- render window_id ;;
       ret ("FvwmCommand " ++ Str.dq ++ "WindowId " ++ w ++
            " Echo id=$[w.id] name=" ++ Str.bs ++ Str.dq ++ "$[w.name]" ++
            Str.bs ++ Str.dq ++ window_fields ++ Str.dq)
     else
       ret ("FvwmCommand 'All (CurrentPage) Echo id=$[w.id] name=" ++ Str.dq ++
            "$[w.name]" ++ Str.dq ++ window_fields ++ "'")) ;;
  '(stdout, _) <- execAsync cmd ;;
  ret (text_result (Str.or_else stdout "No windows found")).

Definition fvwm_get_monitor_layout : M Envelope :=
  '(stdout, _) <- execAsync "xrandr --query | grep ' connected'" ;;
  ret (text_result stdout).

Definition fvwm_test_function (home : string) (args : Obj) : M Envelope :=
  p <- pathJoin home ".fvwm/config" ;;
  config <- readFile (VStr p) ;;
  (* the templates with [function_name] are evaluated after the read *)
  function_name <- render (get args "function_name") ;;
  let functionExists :=
    Str.includes config ("DestroyFunc " ++ function_name) ||
    Str.includes config ("AddToFunc " ++ function_name) in
  ret (text_result
         (if functionExists
          then "Function '" ++ function_name ++ "' exists in configuration"
          else "Function '" ++ function_name ++ "' NOT found in configuration")).

Definition fvwm_restart : M Envelope :=
  _ <- try_catch
         (_ <- execAsync ("FvwmCommand " ++ Str.dq ++ "Restart" ++ Str.dq) ;;
          ret tt)
         (fun _ =>
            (* Restart command may cause FvwmCommand to exit before
               getting response: expected behavior, not an error *)
            ret tt) ;;
  ret (text_result "FVWM3 restart command sent").

(** The four misspelt commands of the typo check. *)
Definition typos : list string :=
  ["DestroyFun"; "AddToFun"; "DestroyMen"; "AddToMen"].

(** The regular expression of the typo check, anchored at the start: one
    of [typos], then one white-space character. *)
Definition typo_match (trimmed : string) : bool :=
  existsb
    (fun kw =>
       match Str.strip_prefix kw trimmed with
       | Some (String c _) => Str.is_ws c
       | _ => false
       end)
    typos.

(** The number of double quotes is odd. *)
Definition unmatched_quotes (trimmed : string) : bool :=
  negb (Nat.eqb (Nat.modulo (Str.count "034"%char trimmed) 2) 0).

(** The body of the [forEach] callback; [errors] is the array it pushes to. *)
Definition check_line (line : string) (idx : nat) (errors : list string)
  : list string :=
  let lineNum := (idx + 1)%nat in
  let trimmed := Str.trim line in
  let errors :=
    if unmatched_quotes trimmed
    then push errors ("Line " ++ Str.of_nat lineNum ++ ": Unmatched double quotes")
    else errors in
  if typo_match trimmed
  then push errors ("Line " ++ Str.of_nat lineNum ++ ": Possible typo in command")
  else errors.

(** [lines.forEach((line, idx) => ...)] from index [idx] on. *)
Fixpoint forEach_check (lines : list string) (idx : nat) (errors : list string)
  : list string :=
  match lines with
  | [] => errors
  | line :: rest => forEach_check rest (S idx) (check_line line idx errors)
  end.

(** The text of the validation report. *)
Definition validation_text (lines errors : list string) : string :=
  if Nat.eqb (length errors) 0
  then "Configuration appears valid (" ++ Str.of_nat (length lines) ++
       " lines checked)"
  else "Found " ++ Str.of_nat (length errors) ++ " potential issues:" ++
       Str.nl ++ Str.join Str.nl errors.

Definition fvwm_validate_config (home : string) (args : Obj) : M Envelope :=
  configPath <-
    (if truthy (get args "config_path") then ret (get args "config_path")
     else p <- pathJoin home ".fvwm/config" ;; ret (VStr p)) ;;
  try_catch
    (config <- readFile configPath ;;
     let lines := Str.split "010"%char config in
     let errors := forEach_check lines 0 [] in
     ret (text_result (validation_text lines errors)))
    (fun error =>
       ret (text_result ("Error reading config: " ++ error_toString error))).

Definition fvwm_get_keybindings (home : string) (args : Obj) : M Envelope :=
  let filter_ := get args "filter" in
  p <- pathJoin home ".fvwm/config" ;;
  config <- readFile (VStr p) ;;
  let lines := Str.split "010"%char config in
  (* A truthy [filter] is converted to text after the read, whatever the
     lines are: by [includes] on the first [Key] line, or by the template of
     the last text when there is no such line.  The conversion has no other
     effect, so it is made once. *)
  wanted <- (if truthy filter_ then render filter_ else ret EmptyString) ;;
  let bindings :=
    filter
      (fun line => negb (truthy filter_) || Str.includes line wanted)
      (filter (fun line => Str.startsWith (Str.trim line) "Key ") lines) in
  ret (text_result
         (if Nat.ltb 0 (length bindings)
          then Str.join Str.nl bindings
          else "No keybindings found" ++
               (if truthy filter_
                then " matching '" ++ wanted ++ "'"
                else EmptyString))).

Definition smart_tile_debug (home : string) (args : Obj) : M Envelope :=
  let lines := val_or (get args "lines") (VNum true "50") in
  try_catch
    (n <- render lines ;;
     log <- pathJoin home ".fvwm/smart-tile-debug.log" ;;
     '(stdout, _) <- execAsync ("tail -n " ++ n ++ " " ++ log) ;;
     ret (text_result (Str.or_else stdout "Debug log is empty")))
    (fun _ => ret (text_result "Debug log not found or empty")).

(** The [for (const file of ...)] loop of the view action; [states] is the
    array it pushes to. *)
Fixpoint read_states (stateDir : string) (files : list string)
         (states : list string) : M (list string) :=
  match files with
  | [] => ret states
  | file :: rest =>
      if Str.nonempty file then
        p <- pathJoin stateDir file ;;
        state <- readFile (VStr p) ;;
        read_states stateDir rest
          (push states (file ++ ": " ++ Str.trim state))
      else read_states stateDir rest states
  end.

Definition smart_tile_state (home : string) (args : Obj) : M Envelope :=
  let action := get args "action" in
  let window_id := get args "window_id" in
  stateDir <- pathJoin home ".fvwm/tile-state" ;;
  if strict_eq action "view" then
      try_catch
        (if truthy window_id then
           p <- pathJoinVal stateDir window_id ;;
           state <- readFile (VStr p) ;;
           w <- render window_id ;;
           ret (text_result ("Window " ++ w ++ ": " ++ state))
         else
           '(files, _) <-
              execAsync ("ls -1 " ++ stateDir ++ " 2>/dev/null || echo " ++
                         Str.dq ++ Str.dq) ;;
           if negb (Str.nonempty (Str.trim files)) then
             ret (text_result "No tile states found")
           else
             states <-
               read_states stateDir
                 (Str.split "010"%char (Str.trim files)) [] ;;
             ret (text_result (Str.join Str.nl states)))
        (fun _ => ret (text_result "No tile states found"))
  else if strict_eq action "clear" then
      try_catch
        (if truthy window_id then
           p <- pathJoinVal stateDir window_id ;;
           _ <- execAsync ("rm -f " ++ p) ;;
           w <- render window_id ;;
           ret (text_result ("Cleared state for window " ++ w))
         else
           _ <- execAsync ("rm -f " ++ stateDir ++ "/*") ;;
           ret (text_result "Cleared all tile states"))
        (fun error =>
           ret (text_result
                  ("Error clearing states: " ++ error_toString error)))
  else
    a <- render action ;;
    throw (Error ("Unknown action: " ++ a)).

Definition fvwm_get_desktop_info : M Envelope :=
  '(stdout, _) <-
     execAsync ("FvwmCommand " ++ Str.dq ++
                "Echo desk=$[desk.n] page=$[page.nx]x$[page.ny] deskname=" ++
                Str.bs ++ Str.dq ++ "$[desk.name$[desk.n]]" ++
                Str.bs ++ Str.dq ++ Str.dq) ;;
  ret (text_result (Str.or_else stdout "Unable to get desktop info")).

(** The [case] labels of [executeTool] with their bodies, in source order. *)
Definition cases (home : string) (args : Obj) : list (string * M Envelope) :=
  [ ("fvwm_execute", fvwm_execute args);
    ("fvwm_get_window_info", fvwm_get_window_info args);
    ("fvwm_get_monitor_layout", fvwm_get_monitor_layout);
    ("fvwm_test_function", fvwm_test_function home args);
    ("fvwm_restart", fvwm_restart);
    ("fvwm_validate_config", fvwm_validate_config home args);
    ("fvwm_get_keybindings", fvwm_get_keybindings home args);
    ("smart_tile_debug", smart_tile_debug home args);
    ("smart_tile_state", smart_tile_state home args);
    ("fvwm_get_desktop_info", fvwm_get_desktop_info) ].

(** Execute a tool by name *)
Definition executeTool (name : string) (args : Obj) : M Envelope :=
  home <- homedir ;;
  try_catch
    (switch name (cases home args)
       (throw (Error ("Unknown tool: " ++ name))))
    (fun error =>
       ret {| content :=
                [ {| type := "text";
                     text := "Error executing tool '" ++ name ++ "': " ++
                             error_toString error |} ];
              isError := Some true |}).

End Tools.

(* ------------------------------------------------------------------ *)
(** ** resources.ts *)

Module Resources.

Record ResourceDescriptor : Type := {
  uri : string;
  name : string;
  description : string;
  mimeType : string
}.

(** List of all available resources *)
Definition getResources : list ResourceDescriptor :=
  [
    {| uri := "fvwm://config/main";
       name := "FVWM3 Main Configuration";
       description := "The complete FVWM3 configuration file (~/.fvwm/config)";
       mimeType := "text/plain" |};
    {| uri := "fvwm://config/repo";
       name := "FVWM3 Repository Configuration";
       description := "Version-controlled configuration from desktop-settings repo";
       mimeType := "text/plain" |};
    {| uri := "fvwm://docs/claude";
       name := "CLAUDE.md Architecture Documentation";
       description := "Complete architecture documentation for FVWM3 setup";
       mimeType := "text/markdown" |};
    {| uri := "fvwm://docs/shortcuts";
       name := "Movement Shortcuts Documentation";
       description := "Spanish documentation of all movement shortcuts (ATAJOS-MOVIMIENTO.md)";
       mimeType := "text/markdown" |};
    {| uri := "fvwm://docs/smart-tiling";
       name := "Smart Tiling Technical Documentation";
       description := "Complete technical documentation of smart tiling system";
       mimeType := "text/markdown" |};
    {| uri := "fvwm://docs/readme";
       name := "FVWM3 Configuration README";
       description := "User-facing documentation and command reference";
       mimeType := "text/markdown" |};
    {| uri := "fvwm://scripts/smart-tile";
       name := "Smart Tiling Script";
       description := "Main smart tiling implementation script";
       mimeType := "text/x-shellscript" |};
    {| uri := "fvwm://scripts/maximize-monitor";
       name := "Maximize Current Monitor Script";
       description := "Monitor-aware maximize script";
       mimeType := "text/x-shellscript" |};
    {| uri := "fvwm://scripts/monitor-setup";
       name := "Monitor Setup Script";
       description := "Multi-monitor configuration script";
       mimeType := "text/x-shellscript" |};
    {| uri := "fvwm://scripts/toggle-keyboard";
       name := "Keyboard Layout Toggle Script";
       description := "Toggle between US and LATAM keyboard layouts";
       mimeType := "text/x-shellscript" |};
    {| uri := "fvwm://state/monitors";
       name := "Current Monitor Layout";
       description := "Current monitor configuration from xrandr";
       mimeType := "text/plain" |};
    {| uri := "fvwm://state/windows";
       name := "Active Windows";
       description := "List of all active windows with geometry";
       mimeType := "application/json" |};
    {| uri := "fvwm://state/current-desktop";
       name := "Current Desktop State";
       description := "Current desktop and page information";
       mimeType := "application/json" |};
    {| uri := "fvwm://state/tile-states";
       name := "Tile State Files";
       description := "Current smart tiling state for all windows";
       mimeType := "application/json" |};
    {| uri := "fvwm://logs/smart-tile";
       name := "Smart Tiling Debug Log";
       description := "Debug log from smart tiling operations";
       mimeType := "text/plain" |} ].

Record ResourceContent : Type := {
  c_uri : string;
  c_mimeType : string;
  c_text : string
}.

Record ReadResult : Type := { contents : list ResourceContent }.

(** [{ contents: [{ uri, mimeType, text }] }] *)
Definition one_content (uri mime txt : string) : ReadResult :=
  {| contents := [ {| c_uri := uri; c_mimeType := mime; c_text := txt |} ] |}.

(** The cases that read one file below the home directory. *)
Definition file_resource (home uri rel mime : string) : M ReadResult :=
  p <- pathJoin home rel ;;
  content <- readFile (VStr p) ;;
  ret (one_content uri mime content).

Definition state_monitors (uri : string) : M ReadResult :=
  '(xrandrOutput, _) <- execAsync "xrandr --query" ;;
  ret (one_content uri "text/plain" xrandrOutput).

Definition state_windows (uri : string) : M ReadResult :=
  '(windowList, _) <-
     execAsync ("FvwmCommand " ++ Str.dq ++
                "All (CurrentPage) Echo $[w.id] $[w.name] $[w.x] $[w.y] $[w.width] $[w.height]" ++
                Str.dq) ;;
  txt <- stringify
           (VObj [("windows",
                   VArr (map VStr (Str.split "010"%char (Str.trim windowList))))]) ;;
  ret (one_content uri "application/json" txt).

Definition state_current_desktop (uri : string) : M ReadResult :=
  '(deskInfo, _) <-
     execAsync ("FvwmCommand " ++ Str.dq ++
                "Echo desk=$[desk.n] page=$[page.nx]x$[page.ny]" ++ Str.dq) ;;
  txt <- stringify (VObj [("state", VStr (Str.trim deskInfo))]) ;;
  ret (one_content uri "application/json" txt).

(** The [for (const file of ...)] loop of the tile-states case; [states]
    is the record it fills. *)
Fixpoint read_tile_states (tileStateDir : string) (files : list string)
         (states : Obj) : M Obj :=
  match files with
  | [] => ret states
  | file :: rest =>
      if Str.nonempty file then
        p <- pathJoin tileStateDir file ;;
        stateContent <- readFile (VStr p) ;;
        read_tile_states tileStateDir rest
          (set states file (Str.trim stateContent))
      else read_tile_states tileStateDir rest states
  end.

Definition state_tile_states (home uri : string) : M ReadResult :=
  tileStateDir <- pathJoin home ".fvwm/tile-state" ;;
  try_catch
    ('(files, _) <- execAsync ("ls " ++ tileStateDir) ;;
     states <-
       read_tile_states tileStateDir
         (Str.split "010"%char (Str.trim files)) [] ;;
     txt <- stringify (VObj states) ;;
     ret (one_content uri "application/json" txt))
    (fun _ =>
       txt <- stringify (VObj []) ;;
       ret (one_content uri "application/json" txt)).

Definition logs_smart_tile (home uri : string) : M ReadResult :=
  content <-
    try_catch
      (p <- pathJoin home ".fvwm/smart-tile-debug.log" ;;
       readFile (VStr p))
      (fun _ => ret "No debug log found") ;;
  ret (one_content uri "text/plain" content).

(** The [case] labels of [readResource] with their bodies, in source order. *)
Definition cases (home uri : string) : list (string * M ReadResult) :=
  [
    ("fvwm://config/main",
     file_resource home uri ".fvwm/config" "text/plain");
    ("fvwm://config/repo",
     file_resource home uri "repo/utils/desktop-settings/fvwm3rc/config" "text/plain");
    ("fvwm://docs/claude",
     file_resource home uri "repo/utils/desktop-settings/CLAUDE.md" "text/markdown");
    ("fvwm://docs/shortcuts",
     file_resource home uri ".fvwm/ATAJOS-MOVIMIENTO.md" "text/markdown");
    ("fvwm://docs/smart-tiling",
     file_resource home uri "repo/utils/desktop-settings/fvwm3rc/scripts/README-SMART-TILING.md" "text/markdown");
    ("fvwm://docs/readme",
     file_resource home uri "repo/utils/desktop-settings/fvwm3rc/README.md" "text/markdown");
    ("fvwm://scripts/smart-tile",
     file_resource home uri ".fvwm/scripts/smart-tile.sh" "text/x-shellscript");
    ("fvwm://scripts/maximize-monitor",
     file_resource home uri ".fvwm/scripts/maximize-current-monitor.sh" "text/x-shellscript");
    ("fvwm://scripts/monitor-setup",
     file_resource home uri ".fvwm/scripts/monitor-setup.sh" "text/x-shellscript");
    ("fvwm://scripts/toggle-keyboard",
     file_resource home uri ".fvwm/scripts/toggle-keyboard-layout.sh" "text/x-shellscript");
    ("fvwm://state/monitors", state_monitors uri);
    ("fvwm://state/windows", state_windows uri);
    ("fvwm://state/current-desktop", state_current_desktop uri);
    ("fvwm://state/tile-states", state_tile_states home uri);
    ("fvwm://logs/smart-tile", logs_smart_tile home uri) ].

(** Read a specific resource by URI *)
Definition readResource (uri : string) : M ReadResult :=
  home <- homedir ;;
  try_catch
    (switch uri (cases home uri)
       (throw (Error ("Unknown resource URI: " ++ uri))))
    (fun error =>
       throw (Error ("Failed to read resource " ++ uri ++ ": " ++
                     error_toString error))).

End Resources.

(* ------------------------------------------------------------------ *)
(** ** prompts.ts *)

Module Prompts.

Record PromptArgument : Type := {
  arg_name : string;
  arg_description : string;
  required : bool
}.

Record PromptDescriptor : Type := {
  name : string;
  description : string;
  arguments : list PromptArgument
}.

Definition arg (n d : string) (r : bool) : PromptArgument :=
  {| arg_name := n; arg_description := d; required := r |}.

(** List of all available prompts *)
Definition getPrompts : list PromptDescriptor :=
  [ {| name := "create-window-function";
       description := "Generate a new FVWM window manipulation function";
       arguments :=
         [ arg "function_name"
             "Name for the new function (e.g., 'MoveToCenterAndResize')" true;
           arg "description" "What the function should do" true ] |};
    {| name := "add-keybinding";
       description := "Generate a keybinding with conflict checking";
       arguments :=
         [ arg "key_combo"
             "Key combination (e.g., 'Super_L+m', 'Alt+Shift+w')" true;
           arg "action" "What the keybinding should do" true;
           arg "context"
             "Context where binding applies (default: 'A' for all)" false ] |};
    {| name := "create-tiling-script";
       description := "Generate a bash script for window tiling operations";
       arguments :=
         [ arg "script_name" "Name for the script (e.g., 'quarter-tile')" true;
           arg "tiling_behavior"
             "Describe the tiling behavior (e.g., 'tile to top-left quarter')"
             true ] |};
    {| name := "debug-fvwm-issue";
       description := "Guide for debugging FVWM configuration issues";
       arguments :=
         [ arg "issue_description"
             "Describe the problem you're experiencing" true ] |};
    {| name := "create-menu";
       description := "Generate an FVWM menu configuration";
       arguments :=
         [ arg "menu_name" "Name for the menu (e.g., 'WindowOpsMenu')" true;
           arg "menu_items" "Comma-separated list of menu items" true ] |} ].

Record TextContent : Type := { type : string; text : string }.

Record Message : Type := { role : string; content : TextContent }.

Record PromptResult : Type := { messages : list Message }.

(** [{ messages: [{ role: "user", content: { type: "text", text: t } }] }] *)
Definition user_message (t : string) : PromptResult :=
  {| messages :=
       [ {| role := "user"; content := {| type := "text"; text := t |} |} ] |}.

(** [const { k, ... } = args]: fails when [args] is [undefined]. *)
Definition destructure (args : option Obj) (k : string) : M Obj :=
  match args with
  | Some o => ret o
  | None =>
      throw (TypeError ("Cannot destructure property '" ++ k ++
                        "' of 'args' as it is undefined."))
  end.

(** [k = dflt] in a destructuring pattern. *)
Definition with_default (v dflt : JsVal) : JsVal :=
  match v with
  | VUndefined => dflt
  | _ => v
  end.

(** [menu_items.split(",")], which only a string has. *)
Definition menu_items_split (menu_items : JsVal) : M (list string) :=
  match menu_items with
  | VStr s => ret (Str.split ","%char s)
  | _ => throw (no_method "menu_items" "split" menu_items)
  end.

(** [items.map((item, idx) => `${idx + 1}. ${item}`)] from index [idx] on. *)
Fixpoint numbered (items : list string) (idx : nat) : list string :=
  match items with
  | [] => []
  | item :: rest =>
      (Str.of_nat (idx + 1) ++ ". " ++ item) :: numbered rest (S idx)
  end.

Definition create_window_function (args : option Obj) : M PromptResult :=
  o <- destructure args "function_name" ;;
  function_name <- render (get o "function_name") ;;
  description <- render (get o "description") ;;
  ret (user_message
         (Str.join Str.nl
            [ "Create a new FVWM3 window function called " ++ Str.dq ++ function_name ++ Str.dq ++ " that " ++ description ++ ".";
              EmptyString;
              "The function should:";
              "1. Follow FVWM3 best practices";
              "2. Use DestroyFunc to allow reloading";
              "3. Use proper FVWM expansion variables (e.g., $[w.id], $[w.x], $[w.width])";
              "4. Include comments explaining the logic";
              "5. Handle edge cases appropriately";
              EmptyString;
              "Current FVWM3 setup context:";
              "- 3 monitors: DP-4 (1920x1080+0+0), HDMI-0 (1920x1080+1920+0), DP-2 (1920x1080+3840+0)";
              "- Desktop layout: 4 desktops (Principal, Web, Desarrollo, Media), 2x2 pages each";
              "- Panel reserves 120px on right edge (EwmhBaseStruts 0 120 0 0)";
              "- Focus policy: ClickToFocus";
              EmptyString;
              "Provide the complete function definition ready to be added to ~/.fvwm/config." ])).

Definition add_keybinding (args : option Obj) : M PromptResult :=
  o <- destructure args "key_combo" ;;
  key_combo <- render (get o "key_combo") ;;
  action <- render (get o "action") ;;
  context <- render (with_default (get o "context") (VStr "A")) ;;
  ret (user_message
         (Str.join Str.nl
            [ "Create a keybinding for " ++ key_combo ++ " that " ++ action ++ ".";
              EmptyString;
              "Requirements:";
              "1. Check for conflicts with existing keybindings in the configuration";
              "2. Use proper FVWM Key syntax: Key <keyname> <context> <modifiers> <action>";
              "3. Context: " ++ context ++ " (R=root window, W=application window, A=all)";
              "4. Follow the project's keybinding conventions:";
              "   - Super (Mod4) for system/WM operations";
              "   - Alt for desktop/window movement";
              "   - Ctrl+Alt for window positioning (shuffle, grow)";
              EmptyString;
              "Current keybinding scheme:";
              "- Alt+q/w/a/s: Navigate to desktops";
              "- Alt+Shift+Q/W/A/S: Send window to desktop";
              "- Alt+Ctrl+q/w/a/s: Move window and follow";
              "- Super+Enter: Terminal";
              "- Super+W: Browser";
              "- Super+E: Editor";
              "- Super+Space: Toggle keyboard layout";
              "- Super+Arrow keys: Smart tiling";
              EmptyString;
              "Provide:";
              "1. The complete Key command";
              "2. List of any conflicts found";
              "3. Suggested alternatives if conflicts exist" ])).

Definition create_tiling_script (args : option Obj) : M PromptResult :=
  o <- destructure args "script_name" ;;
  script_name <- render (get o "script_name") ;;
  tiling_behavior <- render (get o "tiling_behavior") ;;
  ret (user_message
         (Str.join Str.nl
            [ "Create a bash script called " ++ Str.dq ++ script_name ++ ".sh" ++ Str.dq ++ " that " ++ tiling_behavior ++ ".";
              EmptyString;
              "The script should:";
              "1. Follow the smart tiling architecture pattern from smart-tile.sh";
              "2. Use xrandr to detect monitor geometry";
              "3. Handle multi-monitor setups correctly";
              "4. Use FVWM expansion variables passed as arguments";
              "5. Generate ResizeMove commands with absolute pixel coordinates";
              "6. Include debug logging to ~/.fvwm/smart-tile-debug.log";
              "7. Manage state in ~/.fvwm/tile-state/ if needed";
              EmptyString;
              "Monitor setup:";
              "- DP-4: 1920x1080+0+0 (left)";
              "- HDMI-0: 1920x1080+1920+0 (center, primary)";
              "- DP-2: 1920x1080+3840+0 (right)";
              EmptyString;
              "Script should accept FVWM variables as arguments:";
              "$1 = window_id (e.g., 0x9200005)";
              "$2 = window_x";
              "$3 = window_y";
              "$4 = window_width";
              "$5 = window_height";
              EmptyString;
              "Output should be FVWM commands that can be used with PipeRead.";
              EmptyString;
              "Provide:";
              "1. Complete bash script with shebang";
              "2. FVWM function definition to call the script";
              "3. Example keybinding";
              "4. Usage instructions" ])).

Definition debug_fvwm_issue (args : option Obj) : M PromptResult :=
  o <- destructure args "issue_description" ;;
  issue_description <- render (get o "issue_description") ;;
  ret (user_message
         (Str.join Str.nl
            [ "I'm experiencing an issue with FVWM3: " ++ issue_description;
              EmptyString;
              "Please provide a systematic debugging approach:";
              EmptyString;
              "1. **Information Gathering**";
              "   - What FVWM resources to check (fvwm://config/main, fvwm://logs/*, etc.)";
              "   - What tools to use (fvwm_get_window_info, fvwm_get_keybindings, etc.)";
              "   - What logs to examine";
              EmptyString;
              "2. **Diagnostic Steps**";
              "   - Commands to run for diagnosis";
              "   - Expected vs actual output";
              "   - Common causes for this type of issue";
              EmptyString;
              "3. **Testing**";
              "   - How to test in isolation";
              "   - How to verify the fix";
              "   - How to avoid breaking other functionality";
              EmptyString;
              "4. **Common Solutions**";
              "   - Based on similar issues in FVWM3";
              "   - Configuration fixes";
              "   - Workarounds if no direct fix exists";
              EmptyString;
              "Current setup context:";
              "- FVWM3 version: 1.1.5";
              "- 3 monitors, 4 desktops, ClickToFocus";
              "- Smart tiling system installed";
              "- Custom keybindings using QWAS scheme";
              "- RightPanel on primary monitor";
              EmptyString;
              "Provide step-by-step debugging instructions." ])).

(** The fixed text of the create-menu template below the item list. *)
Definition menu_tail : list string :=
  [ EmptyString;
    "The menu should:";
    "1. Use DestroyMenu to allow reloading";
    "2. Follow the project's color scheme (Dracula/Nord inspired dark theme):";
    "   - Colorset 0: Background (#282a36)";
    "   - Colorset 1: Inactive elements (#44475a)";
    "   - Colorset 2: Active highlights (#8be9fd)";
    "3. Include appropriate icons if available";
    "4. Have proper spacing and separators";
    "5. Use meaningful shortcuts/accelerators";
    EmptyString;
    "Menu syntax:";
    "DestroyMenu <menu_name>";
    "AddToMenu <menu_name> " ++ Str.dq ++ "Title" ++ Str.dq ++ " Title";
    "+ " ++ Str.dq ++ "Item Text" ++ Str.dq ++ " Action";
    "+ " ++ Str.dq ++ Str.dq ++ " Nop  # Separator";
    EmptyString;
    "Provide:";
    "1. Complete menu definition";
    "2. Suggested keybinding to open the menu";
    "3. Example of how to add it to the root menu";
    "4. Usage notes" ].

(** The first line of the create-menu template. *)
Definition menu_head (menu_name : string) : string :=
  "Create an FVWM menu called " ++ Str.dq ++ menu_name ++ Str.dq ++
  " with the following items:".

Definition create_menu (args : option Obj) : M PromptResult :=
  o <- destructure args "menu_name" ;;
  let menu_items := get o "menu_items" in
  parts <- menu_items_split menu_items ;;
  let items := map Str.trim parts in
  menu_name <- render (get o "menu_name") ;;
  ret (user_message
         (Str.join Str.nl
            (menu_head menu_name ::
             Str.join Str.nl (numbered items 0) ::
             menu_tail))).

(** The [case] labels of [getPrompt] with their bodies, in source order. *)
Definition cases (args : option Obj) : list (string * M PromptResult) :=
  [ ("create-window-function", create_window_function args);
    ("add-keybinding", add_keybinding args);
    ("create-tiling-script", create_tiling_script args);
    ("debug-fvwm-issue", debug_fvwm_issue args);
    ("create-menu", create_menu args) ].

(** Get a specific prompt with arguments *)
Definition getPrompt (name : string) (args : option Obj) : M PromptResult :=
  switch name (cases args) (throw (Error ("Unknown prompt: " ++ name))).

End Prompts.

(* ------------------------------------------------------------------ *)
(** ** Notions used to state the properties *)

(** The adapter call [c], made after the calls [tr], fails with [e]. *)
Definition fails (h : Host) (tr : list Call) (c : Call) (e : JsError) : Prop :=
  match c with
  | ReadFile p => fs_readFile h tr p = Throw e
  | Exec cmd => child_exec h tr cmd = Throw e
  end.

(** The identifying keys of the three catalogs. *)
Definition resource_uris : list string :=
  map Resources.uri Resources.getResources.

Definition tool_names : list string := map Tools.name Tools.getTools.

Definition prompt_names : list string := map Prompts.name Prompts.getPrompts.

(** The strings of a list are pairwise distinct. *)
Fixpoint distinct (l : list string) : bool :=
  match l with
  | [] => true
  | x :: r => negb (existsb (String.eqb x) r) && distinct r
  end.

(** [returns P m]: whenever [m] returns, its value satisfies [P]. *)
Definition returns {A} (P : A -> Prop) (m : M A) : Prop :=
  forall h tr,
    match fst (m h tr) with
    | Return a => P a
    | Throw _ => True
    end.

(** The [required] list of the tool descriptor called [name]. *)
Definition tool_required (name : string) : list string :=
  match find (fun d => String.eqb (Tools.name d) name) Tools.getTools with
  | Some d =>
      match Tools.required (Tools.inputSchema d) with
      | Some ks => ks
      | None => []
      end
  | None => []
  end.

(** The arguments declared [required: true] by the prompt called [name]. *)
Definition prompt_required (name : string) : list string :=
  match find (fun d => String.eqb (Prompts.name d) name) Prompts.getPrompts with
  | Some d =>
      map Prompts.arg_name (filter Prompts.required (Prompts.arguments d))
  | None => []
  end.

(** The field [k] is absent from the arguments. *)
Definition absent (args : Obj) (k : string) : Prop := get args k = VUndefined.

(** A tool envelope is well formed: one block, of type text. *)
Definition well_formed (r : Tools.Envelope) : Prop :=
  exists txt, Tools.content r = [ {| Tools.type := "text"; Tools.text := txt |} ].

(** The envelope of a failed tool call. *)
Definition error_envelope (txt : string) : Tools.Envelope :=
  {| Tools.content := [ {| Tools.type := "text"; Tools.text := txt |} ];
     Tools.isError := Some true |}.

(** The issues one line of a configuration raises, in the order of the two
    checks; [lineNum] counts from 1. *)
Definition line_issues (lineNum : nat) (line : string) : list string :=
  app
    (if Nat.odd (Str.count "034"%char line)
     then ["Line " ++ Str.of_nat lineNum ++ ": Unmatched double quotes"]
     else [])
    (if Tools.typo_match (Str.trim line)
     then ["Line " ++ Str.of_nat lineNum ++ ": Possible typo in command"]
     else []).

(** The issues of the lines [lines], the first of which has index [idx]. *)
Fixpoint issues_from (idx : nat) (lines : list string) : list string :=
  match lines with
  | [] => []
  | line :: rest => app (line_issues (S idx) line) (issues_from (S idx) rest)
  end.

(** A line passes both checks. *)
Definition line_ok (line : string) : Prop :=
  Nat.even (Str.count "034"%char line) = true /\
  Tools.typo_match (Str.trim line) = false.

(** A line fails at least one check. *)
Definition offending (line : string) : bool :=
  Nat.odd (Str.count "034"%char line) || Tools.typo_match (Str.trim line).

(** The file the validation reads. *)
Definition config_path (h : Host) (args : Obj) : JsVal :=
  if truthy (get args "config_path") then get args "config_path"
  else VStr (path_join h (os_homedir h) ".fvwm/config").

(** The command line [fvwm_execute] runs for the command text [s]. *)
Definition fvwm_command (s : string) : string :=
  "FvwmCommand " ++ Str.dq ++ Str.escape_quotes s ++ Str.dq.

(** A host for the examples: home [/home/u], the listed files, and a
    process runner [exec]. *)
Definition ENOENT : JsError := Error "ENOENT: no such file or directory".

Definition example_host (files : list (string * string))
           (exec : string -> Outcome (string * string)) : Host :=
  {| os_homedir := "/home/u";
     path_join := fun a b => a ++ "/" ++ b;
     JSON_stringify := fun v => "json:" ++ sketch v;
     fs_readFile := fun _ p =>
       match get (map (fun kv => (fst kv, VStr (snd kv))) files) (sketch p) with
       | VStr txt => Return txt
       | _ => Throw ENOENT
       end;
     child_exec := fun _ cmd => exec cmd |}.

(** A process that exits with a non-zero code; [stderr] is what it wrote. *)
Definition exit_failure (cmd stderr : string) : JsError :=
  {| ename := "Error";
     emessage := "Command failed: " ++ cmd ++ Str.nl ++ stderr;
     estderr := Some stderr |}.

(* ------------------------------------------------------------------ *)
(** ** index.ts *)

Module Server.

(** A request, by the schema its handler is registered for; [arguments] is
    [None] where the request leaves the property out. *)
Inductive Request : Type :=
| ListResourcesRequest
| ReadResourceRequest (uri : string)
| ListToolsRequest
| CallToolRequest (name : string) (arguments : option Obj)
| ListPromptsRequest
| GetPromptRequest (name : string) (arguments : option Obj).

Inductive Response : Type :=
| ResourcesList (resources : list Resources.ResourceDescriptor)
| ResourceRead (result : Resources.ReadResult)
| ToolsList (tools : list Tools.ToolDescriptor)
| ToolCalled (result : Tools.Envelope)
| PromptsList (prompts : list Prompts.PromptDescriptor)
| PromptGot (result : Prompts.PromptResult).

(** [request.params.arguments || {}]: an object is truthy. *)
Definition arguments_or_empty (arguments : option Obj) : Obj :=
  match arguments with
  | Some o => o
  | None => []
  end.

(** The six handlers given to [server.setRequestHandler]. *)
Definition handle (request : Request) : M Response :=
  match request with
  | ListResourcesRequest =>
      _ <- homedir ;; ret (ResourcesList Resources.getResources)
  | ReadResourceRequest uri =>
      r <- Resources.readResource uri ;; ret (ResourceRead r)
  | ListToolsRequest => ret (ToolsList Tools.getTools)
  | CallToolRequest name arguments =>
      r <- Tools.executeTool name (arguments_or_empty arguments) ;;
      ret (ToolCalled r)
  | ListPromptsRequest => ret (PromptsList Prompts.getPrompts)
  | GetPromptRequest name arguments =>
      r <- Prompts.getPrompt name arguments ;; ret (PromptGot r)
  end.

End Server.

(* ------------------------------------------------------------------ *)
(** ** Further notions *)

(** Every double quote of a text stands right after a backslash;
    [escaped] tells whether the character before was a backslash. *)
Fixpoint quotes_guarded (escaped : bool) (s : string) : bool :=
  match s with
  | EmptyString => true
  | String c r =>
      (if Ascii.eqb c "034"%char then escaped else true) &&
      quotes_guarded (Ascii.eqb c "092"%char) r
  end.

(** The mime type the catalog declares for a uri. *)
Definition catalog_mimeType (uri : string) : option string :=
  option_map Resources.mimeType
    (find (fun d => String.eqb (Resources.uri d) uri) Resources.getResources).

(** What a resource read returns for [uri]: one content, under that uri,
    with the mime type of the catalog. *)
Definition as_catalogued (uri : string) (r : Resources.ReadResult) : Prop :=
  exists mime txt,
    catalog_mimeType uri = Some mime /\
    Resources.contents r =
      [ {| Resources.c_uri := uri;
           Resources.c_mimeType := mime;
           Resources.c_text := txt |} ].

(** The configuration file of the window manager. *)
Definition main_config (h : Host) : string :=
  path_join h (os_homedir h) ".fvwm/config".

(** The directory of the tile states. *)
Definition tile_state_dir (h : Host) : string :=
  path_join h (os_homedir h) ".fvwm/tile-state".

(** The command lines of the window manager queries. *)
Definition window_command (w : string) : string :=
  "FvwmCommand " ++ Str.dq ++ "WindowId " ++ w ++
  " Echo id=$[w.id] name=" ++ Str.bs ++ Str.dq ++ "$[w.name]" ++
  Str.bs ++ Str.dq ++ Tools.window_fields ++ Str.dq.

Definition all_windows_command : string :=
  "FvwmCommand 'All (CurrentPage) Echo id=$[w.id] name=" ++ Str.dq ++
  "$[w.name]" ++ Str.dq ++ Tools.window_fields ++ "'".

Definition desktop_info_command : string :=
  "FvwmCommand " ++ Str.dq ++
  "Echo desk=$[desk.n] page=$[page.nx]x$[page.ny] deskname=" ++
  Str.bs ++ Str.dq ++ "$[desk.name$[desk.n]]" ++ Str.bs ++ Str.dq ++ Str.dq.

Definition windows_resource_command : string :=
  "FvwmCommand " ++ Str.dq ++
  "All (CurrentPage) Echo $[w.id] $[w.name] $[w.x] $[w.y] $[w.width] $[w.height]" ++
  Str.dq.

Definition desktop_resource_command : string :=
  "FvwmCommand " ++ Str.dq ++
  "Echo desk=$[desk.n] page=$[page.nx]x$[page.ny]" ++ Str.dq.

(** The adapter call that serves a tool that queries the window manager or
    the configuration without a [try] of its own; [None] for another name,
    and for a window id whose conversion to text throws, in which case no
    call is made. *)
Definition tool_call (h : Host) (name : string) (args : Obj) : option Call :=
  switch name
    [ ("fvwm_get_window_info",
       if truthy (get args "window_id")
       then option_map (fun w => Exec (window_command w))
              (toString (get args "window_id"))
       else Some (Exec all_windows_command));
      ("fvwm_get_monitor_layout",
       Some (Exec "xrandr --query | grep ' connected'"));
      ("fvwm_test_function", Some (ReadFile (VStr (main_config h))));
      ("fvwm_get_keybindings", Some (ReadFile (VStr (main_config h))));
      ("fvwm_get_desktop_info", Some (Exec desktop_info_command)) ]
    None.

(** The adapter call that serves a resource first: the file it reads or
    the command it runs; [None] for a uri outside the catalog. *)
Definition resource_call (h : Host) (uri : string) : option Call :=
  let file rel := Some (ReadFile (VStr (path_join h (os_homedir h) rel))) in
  switch uri
    [
      ("fvwm://config/main", file ".fvwm/config");
      ("fvwm://config/repo", file "repo/utils/desktop-settings/fvwm3rc/config");
      ("fvwm://docs/claude", file "repo/utils/desktop-settings/CLAUDE.md");
      ("fvwm://docs/shortcuts", file ".fvwm/ATAJOS-MOVIMIENTO.md");
      ("fvwm://docs/smart-tiling", file "repo/utils/desktop-settings/fvwm3rc/scripts/README-SMART-TILING.md");
      ("fvwm://docs/readme", file "repo/utils/desktop-settings/fvwm3rc/README.md");
      ("fvwm://scripts/smart-tile", file ".fvwm/scripts/smart-tile.sh");
      ("fvwm://scripts/maximize-monitor", file ".fvwm/scripts/maximize-current-monitor.sh");
      ("fvwm://scripts/monitor-setup", file ".fvwm/scripts/monitor-setup.sh");
      ("fvwm://scripts/toggle-keyboard", file ".fvwm/scripts/toggle-keyboard-layout.sh");
      ("fvwm://state/monitors", Some (Exec "xrandr --query"));
      ("fvwm://state/windows", Some (Exec windows_resource_command));
      ("fvwm://state/current-desktop", Some (Exec desktop_resource_command));
      ("fvwm://state/tile-states", Some (Exec ("ls " ++ tile_state_dir h)));
      ("fvwm://logs/smart-tile", file ".fvwm/smart-tile-debug.log") ]
    None.

(** The files named [names] in the directory [dir] can be read while the
    request is served: the file called [f] holds [content f]. *)
Definition listed_readable (h : Host) (dir : string) (names : list string)
           (content : string -> string) : Prop :=
  forall f tr,
    In f names ->
    fs_readFile h tr (VStr (path_join h dir f)) = Return (content f).

(** The envelope of a tool whose arguments could not be converted to text. *)
Definition conversion_envelope (name : string) : Tools.Envelope :=
  error_envelope
    ("Error executing tool '" ++ name ++
     "': TypeError: Cannot convert object to primitive value").

(** The line the view action prints for the state file [file]. *)
Definition state_line (content : string -> string) (file : string) : string :=
  file ++ ": " ++ Str.trim (content file).

(** The names a directory listing holds: its trimmed lines that are not
    empty. *)
Definition listed_files (files : string) : list string :=
  filter Str.nonempty (Str.split "010"%char (Str.trim files)).

(** A host for the examples in which every path can be read: the file at
    [p] holds [content p]. *)
Definition readable_host (content : string -> string)
           (exec : string -> Outcome (string * string)) : Host :=
  {| os_homedir := "/home/u";
     path_join := fun a b => a ++ "/" ++ b;
     JSON_stringify := fun v => "json:" ++ sketch v;
     fs_readFile := fun _ p => Return (content (sketch p));
     child_exec := fun _ cmd => exec cmd |}.

(** The record the tile-states resource builds from the names [files],
    starting from [states]: every name is bound to its trimmed state. *)
Definition fill_states (content : string -> string)
           (files : list string) (states : Obj) : Obj :=
  fold_left (fun st f => set st f (Str.trim (content f))) files states.

(** The properties the input schema of the tool called [name] declares. *)
Definition tool_properties (name : string) : list string :=
  match find (fun d => String.eqb (Tools.name d) name) Tools.getTools with
  | Some d => map fst (Tools.properties (Tools.inputSchema d))
  | None => []
  end.

(** The arguments the prompt called [name] declares. *)
Definition prompt_arguments (name : string) : list string :=
  match find (fun d => String.eqb (Prompts.name d) name) Prompts.getPrompts with
  | Some d => map Prompts.arg_name (Prompts.arguments d)
  | None => []
  end.

(** Two argument mappings agree on the keys [ks]. *)
Definition agree_on (ks : list string) (o o' : Obj) : Prop :=
  forall k, In k ks -> get o k = get o' k.

(** A handler that is a pure function of its arguments: it leaves the
    trace of adapter calls as it found it, its outcome depends neither on
    the host nor on the calls made before, and what it returns is one user
    message. *)
Definition renders (m : M Prompts.PromptResult) : Prop :=
  (forall h tr, snd (m h tr) = tr)
  /\ (forall h tr h' tr', fst (m h tr) = fst (m h' tr'))
  /\ returns (fun r => exists txt, r = Prompts.user_message txt) m.

(* ================================================================== *)
(** * Properties *)

Example trim_ex : Str.trim "  Reload  " = "Reload".
Proof. reflexivity. Qed.

Example split_ex :
  Str.split ","%char "a,,b," = ["a"; EmptyString; "b"; EmptyString].
Proof. reflexivity. Qed.

Example of_nat_ex : (Str.of_nat 0, Str.of_nat 120) = ("0", "120").
Proof. reflexivity. Qed.

(** ** Strings *)

Section StringFacts.

Lemma startsWith_refl_app (p s : string) : Str.startsWith (p ++ s) p = true.
Proof.
  induction p as [|c p IH]; simpl.
  - destruct s; reflexivity.
  - now rewrite Ascii.eqb_refl, IH.
Qed.

Lemma includes_app_l (a s p : string) :
  Str.includes s p = true -> Str.includes (a ++ s) p = true.
Proof.
  intros H. induction a as [|c a IH]; simpl; [exact H|].
  rewrite IH. apply orb_true_r.
Qed.

Lemma startsWith_includes (s p : string) :
  Str.startsWith s p = true -> Str.includes s p = true.
Proof. intros H. destruct s; cbn [Str.includes]; rewrite H; reflexivity. Qed.

Lemma includes_self_app (p s : string) : Str.includes (p ++ s) p = true.
Proof. apply startsWith_includes, startsWith_refl_app. Qed.

Lemma includes_self (p : string) : Str.includes p p = true.
Proof.
  generalize (includes_self_app p EmptyString).
  now replace (p ++ EmptyString) with p
    by (clear; induction p; simpl; congruence).
Qed.

End StringFacts.

(** ** The [switch] statement *)

Section SwitchFacts.

Context {A : Type}.

Lemma switch_default (x : string) (cs : list (string * A)) (d : A) :
  ~ In x (map fst cs) -> switch x cs d = d.
Proof.
  induction cs as [|[k b] cs IH]; simpl; intros H; [reflexivity|].
  destruct (String.eqb_spec x k) as [->|_].
  - exfalso. apply H. now left.
  - apply IH. intros HI. apply H. now right.
Qed.

Lemma switch_ind (P : A -> Prop) (x : string) (cs : list (string * A)) (d : A) :
  P d -> Forall P (map snd cs) -> P (switch x cs d).
Proof.
  intros Hd. induction cs as [|[k b] cs IH]; simpl; intros HF; [exact Hd|].
  inversion HF; subst. destruct (String.eqb x k); auto.
Qed.

End SwitchFacts.

(** ** Unknown identifiers *)

Lemma tool_case_labels (home : string) (args : Obj) :
  map fst (Tools.cases home args) = tool_names.
Proof. reflexivity. Qed.

Lemma resource_case_labels (home uri : string) :
  map fst (Resources.cases home uri) = resource_uris.
Proof. reflexivity. Qed.

Lemma prompt_case_labels (args : option Obj) :
  map fst (Prompts.cases args) = prompt_names.
Proof. reflexivity. Qed.

(** C1. A tool name outside the catalog never makes [executeTool] throw and
    never reaches an adapter: the call returns an envelope with [isError]
    true and a single text block, and the text contains the unknown name. *)
Theorem executeTool_unknown_tool :
  forall (name : string) (args : Obj) (h : Host) (tr : list Call),
    ~ In name tool_names ->
    Tools.executeTool name args h tr =
      (Return (error_envelope
                 ("Error executing tool '" ++ name ++
                  "': Error: Unknown tool: " ++ name)), tr)
    /\ Str.includes
         ("Error executing tool '" ++ name ++ "': Error: Unknown tool: " ++ name)
         name = true.
Proof.
  intros name args h tr Hname. split.
  - unfold Tools.executeTool, bind, homedir, try_catch.
    rewrite switch_default by (now rewrite tool_case_labels).
    reflexivity.
  - apply (includes_app_l "Error executing tool '").
    apply includes_self_app.
Qed.

Lemma executeTool_unknown_tool_witness :
  exists r,
    Tools.executeTool "fvwm_shutdown" []
      (example_host [] (fun _ => Return (EmptyString, EmptyString))) [] =
      (Return r, [])
    /\ Tools.isError r = Some true.
Proof.
  eexists. split.
  - apply (executeTool_unknown_tool "fvwm_shutdown" []).
    vm_compute. intuition discriminate.
  - reflexivity.
Defined.

(** C4. A prompt name outside the catalog makes [getPrompt] throw
    [Unknown prompt: name]; the error reaches the caller, no result is
    built and no adapter is called. *)
Theorem getPrompt_unknown_prompt :
  forall (name : string) (args : option Obj) (h : Host) (tr : list Call),
    ~ In name prompt_names ->
    Prompts.getPrompt name args h tr =
      (Throw (Error ("Unknown prompt: " ++ name)), tr).
Proof.
  intros name args h tr Hname. unfold Prompts.getPrompt.
  rewrite switch_default by (now rewrite prompt_case_labels).
  reflexivity.
Qed.

Lemma getPrompt_unknown_prompt_witness :
  Prompts.getPrompt "rename-desktop" (Some [])
    (example_host [] (fun _ => Return (EmptyString, EmptyString))) [] =
    (Throw (Error "Unknown prompt: rename-desktop"), []).
Proof.
  apply (getPrompt_unknown_prompt "rename-desktop").
  vm_compute. intuition discriminate.
Defined.

(** C5. A uri outside the catalog makes [readResource] throw, and the trace
    of adapter calls is left as it was: no file is read and no process is
    run. *)
Theorem readResource_unknown_uri :
  forall (uri : string) (h : Host) (tr : list Call),
    ~ In uri resource_uris ->
    Resources.readResource uri h tr =
      (Throw (Error ("Failed to read resource " ++ uri ++
                     ": Error: Unknown resource URI: " ++ uri)), tr).
Proof.
  intros uri h tr Huri.
  unfold Resources.readResource, bind, homedir, try_catch.
  rewrite switch_default by (now rewrite resource_case_labels).
  reflexivity.
Qed.

Lemma readResource_unknown_uri_witness :
  Resources.readResource "fvwm://config/other"
    (example_host [] (fun _ => Return (EmptyString, EmptyString))) [] =
    (Throw (Error
       "Failed to read resource fvwm://config/other: Error: Unknown resource URI: fvwm://config/other"),
     []).
Proof.
  apply (readResource_unknown_uri "fvwm://config/other").
  vm_compute. intuition discriminate.
Defined.

(** ** Catalog integrity *)

Lemma distinct_NoDup (l : list string) : distinct l = true -> NoDup l.
Proof.
  induction l as [|x r IH]; simpl; intros H; constructor.
  - apply andb_prop in H as [H _]. intros HI.
    apply negb_true_iff in H.
    assert (existsb (String.eqb x) r = true) as E
      by (apply existsb_exists; exists x; split; [exact HI | apply String.eqb_refl]).
    congruence.
  - apply IH. now apply andb_prop in H as [_ H].
Qed.

(** C8. In each of the three catalogs the identifying keys (uri of a
    resource, name of a tool, name of a prompt) are pairwise distinct. *)
Theorem catalog_keys_distinct :
  NoDup (map Resources.uri Resources.getResources) /\
  NoDup (map Tools.name Tools.getTools) /\
  NoDup (map Prompts.name Prompts.getPrompts).
Proof.
  repeat split; apply distinct_NoDup; vm_compute; reflexivity.
Qed.

(** ** What a handler can return *)

Section Returns.

Context {A B : Type}.
Variable P : B -> Prop.

Lemma returns_ret (b : B) : P b -> returns P (ret b).
Proof. intros H h tr. exact H. Qed.

Lemma returns_throw (e : JsError) : returns P (throw e).
Proof. intros h tr. exact I. Qed.

Lemma returns_bind (m : M A) (k : A -> M B) :
  (forall a, returns P (k a)) -> returns P (bind m k).
Proof.
  intros H h tr. unfold bind.
  destruct (m h tr) as [[a|e] tr']; [apply H | exact I].
Qed.

Lemma returns_try_catch (m : M B) (handler : JsError -> M B) :
  returns P m -> (forall e, returns P (handler e)) ->
  returns P (try_catch m handler).
Proof.
  intros Hm Hh h tr. unfold try_catch.
  specialize (Hm h tr). destruct (m h tr) as [[b|e] tr']; [exact Hm | apply Hh].
Qed.

End Returns.

Lemma well_formed_text_result (t : string) : well_formed (Tools.text_result t).
Proof. now exists t. Qed.

Create HintDb returns.
#[local] Hint Resolve well_formed_text_result : returns.

(** One step of the syntax-directed proof that a handler only returns
    well-formed envelopes. *)
Ltac returns_step :=
  match goal with
  | |- returns _ (bind _ _) => apply returns_bind; intros
  | |- returns _ (try_catch _ _) => apply returns_try_catch; [|intros]
  | |- returns _ (ret _) => apply returns_ret; auto with returns
  | |- returns _ (throw _) => apply returns_throw
  | |- returns _ (let 'pair _ _ := ?x in _) => destruct x
  | |- returns _ (if ?b then _ else _) => destruct b
  end.

Section ToolHandlers.

Variables (home : string) (args : Obj).

Lemma fvwm_execute_wf : returns well_formed (Tools.fvwm_execute args).
Proof. unfold Tools.fvwm_execute. repeat returns_step. Qed.

Lemma fvwm_get_window_info_wf :
  returns well_formed (Tools.fvwm_get_window_info args).
Proof. unfold Tools.fvwm_get_window_info. repeat returns_step. Qed.

Lemma fvwm_get_monitor_layout_wf :
  returns well_formed Tools.fvwm_get_monitor_layout.
Proof. unfold Tools.fvwm_get_monitor_layout. repeat returns_step. Qed.

Lemma fvwm_test_function_wf :
  returns well_formed (Tools.fvwm_test_function home args).
Proof. unfold Tools.fvwm_test_function. repeat returns_step. Qed.

Lemma fvwm_restart_wf : returns well_formed Tools.fvwm_restart.
Proof. unfold Tools.fvwm_restart. repeat returns_step. Qed.

Lemma fvwm_validate_config_wf :
  returns well_formed (Tools.fvwm_validate_config home args).
Proof. unfold Tools.fvwm_validate_config. repeat returns_step. Qed.

Lemma fvwm_get_keybindings_wf :
  returns well_formed (Tools.fvwm_get_keybindings home args).
Proof. unfold Tools.fvwm_get_keybindings. repeat returns_step. Qed.

Lemma smart_tile_debug_wf :
  returns well_formed (Tools.smart_tile_debug home args).
Proof. unfold Tools.smart_tile_debug. repeat returns_step. Qed.

Lemma smart_tile_state_wf :
  returns well_formed (Tools.smart_tile_state home args).
Proof. unfold Tools.smart_tile_state. repeat returns_step. Qed.

Lemma fvwm_get_desktop_info_wf :
  returns well_formed Tools.fvwm_get_desktop_info.
Proof. unfold Tools.fvwm_get_desktop_info. repeat returns_step. Qed.

Lemma tool_cases_wf :
  Forall (returns well_formed) (map snd (Tools.cases home args)).
Proof.
  repeat constructor;
    auto using fvwm_execute_wf, fvwm_get_window_info_wf,
      fvwm_get_monitor_layout_wf, fvwm_test_function_wf, fvwm_restart_wf,
      fvwm_validate_config_wf, fvwm_get_keybindings_wf, smart_tile_debug_wf,
      smart_tile_state_wf, fvwm_get_desktop_info_wf.
Qed.

End ToolHandlers.

(** C9. Whatever the tool name and the arguments, [executeTool] returns, and
    the envelope it returns, flagged as an error or not, has a content of
    exactly one block, of type text, holding a string. *)
Theorem executeTool_envelope :
  forall (name : string) (args : Obj) (h : Host) (tr : list Call),
    exists (txt : string) (flag : option bool) (tr' : list Call),
      Tools.executeTool name args h tr =
        (Return {| Tools.content :=
                     [ {| Tools.type := "text"; Tools.text := txt |} ];
                   Tools.isError := flag |}, tr').
Proof.
  intros name args h tr.
  unfold Tools.executeTool, bind, homedir.
  set (body := switch name (Tools.cases (os_homedir h) args)
                 (throw (Error ("Unknown tool: " ++ name)))).
  assert (returns well_formed body) as Hbody
    by (apply switch_ind; [apply returns_throw | apply tool_cases_wf]).
  specialize (Hbody h tr). unfold try_catch, ret.
  destruct (body h tr) as [[r|e] tr']; simpl in Hbody.
  - destruct Hbody as [txt Htxt]. destruct r as [c f]; simpl in Htxt; subst c.
    now exists txt, f, tr'.
  - now eexists _, _, _.
Qed.

(** ** Failures of [fvwm_execute] *)

(** Unfolds one request down to the adapters. *)
Ltac run_handler :=
  unfold Tools.executeTool, Resources.readResource, Prompts.getPrompt;
  cbn [switch Tools.cases Resources.cases Prompts.cases String.eqb Ascii.eqb Bool.eqb];
  unfold bind, homedir, try_catch.

(** C6, as the code has it.  For a command text [s], when the FvwmCommand
    invocation fails, [executeTool] never throws: it returns an envelope
    with [isError] true when the failure carries a [stderr] that is not
    blank, and the plain text [Command executed (no output)], without the
    error flag, when [stderr] is absent or blank. *)
Theorem fvwm_execute_failure :
  forall (args : Obj) (s : string) (h : Host) (tr : list Call) (e : JsError),
    get args "command" = VStr s ->
    fails h tr (Exec (fvwm_command s)) e ->
    Tools.executeTool "fvwm_execute" args h tr =
      (Return (if Tools.stderr_nonblank e
               then error_envelope
                      ("Error executing tool 'fvwm_execute': " ++
                       error_toString e)
               else Tools.text_result "Command executed (no output)"),
       (tr ++ [Exec (fvwm_command s)])%list).
Proof.
  intros args s h tr e Hcmd Hfail. simpl in Hfail.
  run_handler. unfold Tools.fvwm_execute, try_catch, bind.
  rewrite Hcmd. cbn [Tools.command_replace ret execAsync].
  fold (fvwm_command s). rewrite Hfail.
  destruct (Tools.stderr_nonblank e); reflexivity.
Qed.

Lemma fvwm_execute_failure_witness :
  Tools.executeTool "fvwm_execute" [("command", VStr "Restrat")]
    (example_host [] (fun c => Throw (exit_failure c "Unknown command")))
    [] =
    (Return (error_envelope
       ("Error executing tool 'fvwm_execute': Error: Command failed: " ++
        fvwm_command "Restrat" ++ Str.nl ++ "Unknown command")),
     [Exec (fvwm_command "Restrat")]).
Proof.
  apply (fvwm_execute_failure [("command", VStr "Restrat")] "Restrat"
           (example_host [] (fun c => Throw (exit_failure c "Unknown command")))
           [] (exit_failure (fvwm_command "Restrat") "Unknown command"));
    reflexivity.
Defined.

(** C6 fails as stated: FvwmCommand exits with a failure and an empty
    [stderr], and the envelope carries no error flag. *)
Lemma fvwm_execute_silent_failure :
  fails (example_host [] (fun c => Throw (exit_failure c EmptyString))) []
    (Exec (fvwm_command "Restart"))
    (exit_failure (fvwm_command "Restart") EmptyString)
  /\ Tools.executeTool "fvwm_execute" [("command", VStr "Restart")]
       (example_host [] (fun c => Throw (exit_failure c EmptyString))) [] =
       (Return {| Tools.content :=
                    [ {| Tools.type := "text";
                         Tools.text := "Command executed (no output)" |} ];
                  Tools.isError := None |},
        [Exec (fvwm_command "Restart")]).
Proof. split; reflexivity. Qed.

(** ** Required fields *)

Lemma required_tool_fields :
  tool_required "fvwm_execute" = ["command"] /\
  tool_required "fvwm_test_function" = ["function_name"] /\
  tool_required "smart_tile_state" = ["action"] /\
  forall name, In name tool_names ->
    name <> "fvwm_execute" -> name <> "fvwm_test_function" ->
    name <> "smart_tile_state" -> tool_required name = [].
Proof.
  repeat split; intros name Hin H1 H2 H3.
  vm_compute in Hin.
  repeat (destruct Hin as [<-|Hin]; [try reflexivity; congruence|]).
  destruct Hin.
Qed.

Lemma prompt_required_cases (name k : string) :
  In k (prompt_required name) ->
  (name, k) = ("create-window-function", "function_name") \/
  (name, k) = ("create-window-function", "description") \/
  (name, k) = ("add-keybinding", "key_combo") \/
  (name, k) = ("add-keybinding", "action") \/
  (name, k) = ("create-tiling-script", "script_name") \/
  (name, k) = ("create-tiling-script", "tiling_behavior") \/
  (name, k) = ("debug-fvwm-issue", "issue_description") \/
  (name, k) = ("create-menu", "menu_name") \/
  (name, k) = ("create-menu", "menu_items").
Proof.
  unfold prompt_required. cbn [find Prompts.getPrompts Prompts.name].
  repeat match goal with
         | |- context [String.eqb ?a name] =>
             destruct (String.eqb_spec a name) as [<-|_]
         end;
    cbn; intuition (subst; auto 10).
Qed.

(** C2, as the code has it.  Neither [executeTool] nor [getPrompt] compares
    the arguments with the required-field list; the handler body runs and
    reads a missing field as [undefined].  Without [function_name],
    [fvwm_test_function] does what it does for the name [undefined], the
    file read included; without [action], [smart_tile_state] returns an
    envelope with [isError] true and the text [Unknown action: undefined].
    A prompt renders a missing required argument as the text [undefined],
    except that [create-menu] without [menu_items] throws a [TypeError]. *)
Theorem missing_required_field :
  (forall args h tr,
      absent args "function_name" ->
      Tools.executeTool "fvwm_test_function" args h tr =
        Tools.executeTool "fvwm_test_function"
          [("function_name", VStr "undefined")] h tr)
  /\ (forall args h tr,
      absent args "action" ->
      Tools.executeTool "smart_tile_state" args h tr =
        (Return (error_envelope
                   "Error executing tool 'smart_tile_state': Error: Unknown action: undefined"),
         tr))
  /\ (forall name k o h tr,
      In k (prompt_required name) ->
      absent o k ->
      (name, k) <> ("create-menu", "menu_items") ->
      Prompts.getPrompt name (Some o) h tr =
        Prompts.getPrompt name (Some ((k, VStr "undefined") :: o)) h tr)
  /\ (forall o h tr,
      absent o "menu_items" ->
      Prompts.getPrompt "create-menu" (Some o) h tr =
        (Throw (TypeError
                  "Cannot read properties of undefined (reading 'split')"),
         tr)).
Proof.
  unfold absent. repeat split.
  - intros args h tr H. run_handler.
    unfold Tools.fvwm_test_function. rewrite H. reflexivity.
  - intros args h tr H. run_handler.
    unfold Tools.smart_tile_state, bind, pathJoin. rewrite H. reflexivity.
  - intros name k o h tr Hin H Hne.
    apply prompt_required_cases in Hin.
    repeat (destruct Hin as [Hin|Hin]);
      try (injection Hin as -> ->); try congruence; run_handler;
      unfold Prompts.create_window_function, Prompts.add_keybinding,
        Prompts.create_tiling_script, Prompts.debug_fvwm_issue,
        Prompts.create_menu, Prompts.destructure, bind, ret;
      cbn [get String.eqb Ascii.eqb Bool.eqb]; rewrite H; reflexivity.
  - intros o h tr H. run_handler.
    unfold Prompts.create_menu, Prompts.destructure, bind, ret.
    rewrite H. reflexivity.
Qed.

Lemma missing_required_field_witness :
  Tools.executeTool "smart_tile_state" [("window_id", VStr "0x9200005")]
    (example_host [] (fun _ => Return (EmptyString, EmptyString))) [] =
    (Return (error_envelope
               "Error executing tool 'smart_tile_state': Error: Unknown action: undefined"),
     []).
Proof.
  apply (proj1 (proj2 missing_required_field)). reflexivity.
Defined.

(** C2 fails as stated: [function_name] is required by the descriptor of
    [fvwm_test_function] and missing from the arguments, yet the
    configuration is read and the result carries no error flag. *)
Lemma missing_function_name_not_reported :
  In "function_name" (tool_required "fvwm_test_function")
  /\ absent [] "function_name"
  /\ Tools.executeTool "fvwm_test_function" []
       (example_host [("/home/u/.fvwm/config", "DestroyFunc Tile")]
          (fun _ => Throw ENOENT)) [] =
       (Return {| Tools.content :=
                    [ {| Tools.type := "text";
                         Tools.text :=
                           "Function 'undefined' NOT found in configuration" |} ];
                  Tools.isError := None |},
        [ReadFile (VStr "/home/u/.fvwm/config")]).
Proof. repeat split. now left. Qed.

(** The inner [catch] of [fvwm_execute] also receives the [TypeError] of a
    command that is no string: without [command] no process is run and the
    text reports an executed command. *)
Lemma fvwm_execute_without_command (args : Obj) (h : Host) (tr : list Call) :
  absent args "command" ->
  Tools.executeTool "fvwm_execute" args h tr =
    (Return (Tools.text_result "Command executed (no output)"), tr).
Proof.
  intros H. run_handler.
  unfold Tools.fvwm_execute, try_catch, bind. rewrite H. reflexivity.
Qed.

(** ** Adapter failures while reading a resource *)

Lemma error_toString_carries_message (e : JsError) :
  Str.includes (error_toString e) (emessage e) = true.
Proof.
  unfold error_toString.
  destruct (ename e) as [|a n], (emessage e) as [|b m];
    try apply includes_self.
  - reflexivity.
  - apply (includes_app_l (String a n)), (includes_app_l ": "), includes_self.
Qed.

Lemma failure_text_carries_message (uri : string) (e : JsError) :
  Str.includes
    ("Failed to read resource " ++ uri ++ ": " ++ error_toString e)
    (emessage e) = true.
Proof.
  apply (includes_app_l "Failed to read resource "), includes_app_l.
  apply (includes_app_l ": "), error_toString_carries_message.
Qed.

Lemma read_tile_states_unreadable (h : Host) (dir f : string) (e : JsError) :
  Str.nonempty f = true ->
  (forall tr, fs_readFile h tr (VStr (path_join h dir f)) = Throw e) ->
  forall (files : list string) (states : Obj) (tr : list Call),
    In f files ->
    exists e' tr',
      Resources.read_tile_states dir files states h tr = (Throw e', tr').
Proof.
  intros Hf Hfail files.
  induction files as [|file rest IH]; intros states tr Hin; simpl in *;
    [contradiction|].
  destruct (String.eqb_spec file f) as [->|Hne].
  - rewrite Hf. unfold bind, pathJoin, readFile. rewrite Hfail. eauto.
  - destruct Hin as [Heq|Hin]; [contradiction|].
    destruct (Str.nonempty file); [|now apply IH].
    unfold bind, pathJoin, readFile.
    destruct (fs_readFile h tr _); [now apply IH | eauto].
Qed.

(** C3, as the code has it.  When the adapter call that serves a uri of
    the catalog (the read of its file, or its command) fails with [e]:
    [readResource] throws an error whose message carries the rendering of
    [e], after that single call (no retry) and without a result, for every
    uri but two.  For [fvwm://logs/smart-tile] and
    [fvwm://state/tile-states] the failure is caught and a result is
    returned in its place: the text [No debug log found], and the rendering
    of the empty record.  The tile states also fall back to the empty
    record when the listing succeeds and a listed file cannot be read.
    These two uris never throw, whatever fails. *)
Theorem readResource_adapter_failure :
  (forall (uri : string) (h : Host) (tr : list Call) (c : Call)
          (e : JsError),
      resource_call h uri = Some c ->
      fails h tr c e ->
      (uri <> "fvwm://state/tile-states" -> uri <> "fvwm://logs/smart-tile" ->
       Resources.readResource uri h tr =
         (Throw (Error ("Failed to read resource " ++ uri ++ ": " ++
                        error_toString e)),
          (tr ++ [c])%list)
       /\ Str.includes
            ("Failed to read resource " ++ uri ++ ": " ++ error_toString e)
            (emessage e) = true)
      /\ (uri = "fvwm://logs/smart-tile" ->
          Resources.readResource uri h tr =
            (Return (Resources.one_content uri "text/plain"
                       "No debug log found"),
             (tr ++ [c])%list))
      /\ (uri = "fvwm://state/tile-states" ->
          Resources.readResource uri h tr =
            (Return (Resources.one_content uri "application/json"
                       (JSON_stringify h (VObj []))),
             (tr ++ [c])%list)))
  /\ (forall (h : Host) (tr : list Call) (files err f : string)
             (e : JsError),
         child_exec h tr ("ls " ++ tile_state_dir h) = Return (files, err) ->
         In f (listed_files files) ->
         (forall tr',
             fs_readFile h tr' (VStr (path_join h (tile_state_dir h) f)) =
               Throw e) ->
         exists tr',
           Resources.readResource "fvwm://state/tile-states" h tr =
             (Return (Resources.one_content "fvwm://state/tile-states"
                        "application/json" (JSON_stringify h (VObj []))),
              tr'))
  /\ (forall (uri : string) (h : Host) (tr : list Call),
         uri = "fvwm://logs/smart-tile" \/ uri = "fvwm://state/tile-states" ->
         exists r tr', Resources.readResource uri h tr = (Return r, tr')).
Proof.
  split; [|split].
  - intros uri h tr c e Hcall Hfail.
    assert (In uri resource_uris) as Hin.
    { destruct (in_dec string_dec uri resource_uris) as [Hin|Hout]; [exact Hin|].
      unfold resource_call in Hcall. rewrite switch_default in Hcall;
        [discriminate | exact Hout]. }
    vm_compute in Hin.
    repeat (destruct Hin as [<-|Hin]); try contradiction;
      unfold resource_call in Hcall;
      cbn [switch String.eqb Ascii.eqb Bool.eqb] in Hcall;
      injection Hcall as <-; cbn [fails append] in Hfail;
      (split; [|split]); intros; try congruence;
      try (split; [|apply failure_text_carries_message]);
      run_handler;
      unfold Resources.file_resource, Resources.state_monitors,
        Resources.state_windows, Resources.state_current_desktop,
        Resources.state_tile_states, Resources.logs_smart_tile,
        bind, try_catch, pathJoin, readFile, execAsync;
      fold (tile_state_dir h); fold windows_resource_command;
      fold desktop_resource_command;
      cbn [append]; rewrite Hfail; reflexivity.
  - intros h tr files err f e Hls Hin Hfail. run_handler.
    unfold Resources.state_tile_states, bind, try_catch, pathJoin, execAsync.
    fold (tile_state_dir h). rewrite Hls.
    unfold listed_files in Hin. apply filter_In in Hin as [Hin Hf].
    destruct (read_tile_states_unreadable h (tile_state_dir h) f e Hf Hfail
                _ [] (tr ++ [Exec ("ls " ++ tile_state_dir h)])%list Hin)
      as [e' [tr' Hthrow]].
    rewrite Hthrow. cbn. eauto.
  - intros uri h tr [-> | ->]; run_handler.
    + unfold Resources.logs_smart_tile, bind, try_catch, pathJoin, readFile.
      destruct (fs_readFile h tr _); cbn; eauto.
    + unfold Resources.state_tile_states, bind, try_catch, pathJoin, execAsync,
        stringify, ret.
      destruct (child_exec h tr _) as [[files err]|e0]; [|cbn; eauto].
      destruct (Resources.read_tile_states _ _ _ h _) as [[states|e0] tr''];
        cbn; eauto.
Qed.

Lemma readResource_adapter_failure_witness :
  Resources.readResource "fvwm://config/main"
    (example_host [("/home/u/.fvwm/tile-state/0x1", "left")]
       (fun _ => Return ("ok", EmptyString))) [] =
    (Throw (Error
       "Failed to read resource fvwm://config/main: Error: ENOENT: no such file or directory"),
     [ReadFile (VStr "/home/u/.fvwm/config")])
  /\ Str.includes
       "Failed to read resource fvwm://config/main: Error: ENOENT: no such file or directory"
       "ENOENT: no such file or directory" = true.
Proof.
  apply (proj1 readResource_adapter_failure "fvwm://config/main"
           (example_host [("/home/u/.fvwm/tile-state/0x1", "left")]
              (fun _ => Return ("ok", EmptyString)))
           [] (ReadFile (VStr "/home/u/.fvwm/config")) ENOENT).
  - reflexivity.
  - reflexivity.
  - discriminate.
  - discriminate.
Defined.

(** C3 fails as stated: the debug log cannot be read, and [readResource]
    returns a result in place of the failure. *)
Lemma readResource_missing_log_succeeds :
  fails (example_host [] (fun _ => Throw ENOENT)) []
    (ReadFile (VStr "/home/u/.fvwm/smart-tile-debug.log")) ENOENT
  /\ Resources.readResource "fvwm://logs/smart-tile"
       (example_host [] (fun _ => Throw ENOENT)) [] =
       (Return {| Resources.contents :=
                    [ {| Resources.c_uri := "fvwm://logs/smart-tile";
                         Resources.c_mimeType := "text/plain";
                         Resources.c_text := "No debug log found" |} ] |},
        [ReadFile (VStr "/home/u/.fvwm/smart-tile-debug.log")]).
Proof. split; reflexivity. Qed.

(** ** Lines and items *)

Section SplitFacts.

Variable sep : ascii.

Lemma split_nonempty (s : string) : Str.split sep s <> [].
Proof.
  destruct s as [|c r]; simpl; [discriminate|].
  destruct (Ascii.eqb c sep); [discriminate|].
  destruct (Str.split sep r); discriminate.
Qed.

Lemma split_length (s : string) :
  length (Str.split sep s) = S (Str.count sep s).
Proof.
  induction s as [|c r IH]; simpl; [reflexivity|].
  destruct (Ascii.eqb c sep); simpl; [now rewrite IH|].
  destruct (Str.split sep r) eqn:E; simpl in *; [discriminate | exact IH].
Qed.

(** Joining what was split gives the text back. *)
Lemma join_split (s : string) :
  Str.join (String sep EmptyString) (Str.split sep s) = s.
Proof.
  unfold Str.join. induction s as [|c r IH]; simpl; [reflexivity|].
  destruct (Ascii.eqb_spec c sep) as [->|Hc].
  - pose proof (split_nonempty r) as Hne.
    destruct (Str.split sep r) as [|p ps] eqn:E; [contradiction|].
    simpl in *. now rewrite IH.
  - pose proof (split_nonempty r) as Hne.
    destruct (Str.split sep r) as [|p ps] eqn:E; [contradiction|].
    destruct ps as [|q qs]; simpl in *; now rewrite <- IH.
Qed.

End SplitFacts.

Section LineFacts.

Lemma append_assoc (a b c : string) : (a ++ b) ++ c = a ++ b ++ c.
Proof. induction a as [|x a IH]; simpl; [reflexivity | now rewrite IH]. Qed.

Lemma count_app (c : ascii) (a b : string) :
  Str.count c (a ++ b) = (Str.count c a + Str.count c b)%nat.
Proof. induction a as [|x a IH]; simpl; [reflexivity | rewrite IH; lia]. Qed.

Variable sep : ascii.

Lemma split_clean (a : string) :
  Str.count sep a = 0%nat -> Str.split sep a = [a].
Proof.
  induction a as [|c a IH]; simpl; [reflexivity|].
  destruct (Ascii.eqb c sep); [discriminate|].
  simpl. intros H. now rewrite IH.
Qed.

Lemma split_app_sep (a b : string) :
  Str.count sep a = 0%nat ->
  Str.split sep (a ++ String sep b) = a :: Str.split sep b.
Proof.
  induction a as [|c a IH]; simpl.
  - now rewrite Ascii.eqb_refl.
  - destruct (Ascii.eqb c sep); [discriminate|].
    simpl. intros H. now rewrite IH.
Qed.

(** Splitting what was joined gives the lines back, when no line holds
    the separator. *)
Lemma split_join (ls : list string) :
  ls <> [] ->
  Forall (fun l => Str.count sep l = 0%nat) ls ->
  Str.split sep (Str.join (String sep EmptyString) ls) = ls.
Proof.
  unfold Str.join. induction ls as [|l ls IH]; intros Hne Hclean;
    [contradiction|].
  inversion Hclean as [|? ? Hl Hls]; subst.
  destruct ls as [|l2 ls]; simpl.
  - now apply split_clean.
  - rewrite split_app_sep by assumption.
    f_equal. apply IH; [discriminate | assumption].
Qed.

Lemma join_nested (ls : list string) (r : string) (rest : list string) :
  ls <> [] ->
  Str.join (String sep EmptyString)
    (Str.join (String sep EmptyString) ls :: r :: rest) =
  Str.join (String sep EmptyString) (ls ++ r :: rest).
Proof.
  unfold Str.join. induction ls as [|l ls IH]; intros Hne; [contradiction|].
  destruct ls as [|l2 ls].
  - reflexivity.
  - change (String.concat (String sep EmptyString) ((l :: l2 :: ls) ++ r :: rest))
      with (l ++ String sep EmptyString ++
            String.concat (String sep EmptyString) ((l2 :: ls) ++ r :: rest)).
    rewrite <- IH by discriminate.
    change (String.concat (String sep EmptyString) (l :: l2 :: ls))
      with (l ++ String sep EmptyString ++
            String.concat (String sep EmptyString) (l2 :: ls)).
    set (J := String.concat (String sep EmptyString) (l2 :: ls)).
    change (String.concat (String sep EmptyString)
              ((l ++ String sep EmptyString ++ J) :: r :: rest))
      with ((l ++ String sep EmptyString ++ J) ++ String sep EmptyString ++
            String.concat (String sep EmptyString) (r :: rest)).
    change (String.concat (String sep EmptyString) (J :: r :: rest))
      with (J ++ String sep EmptyString ++
            String.concat (String sep EmptyString) (r :: rest)).
    now rewrite !append_assoc.
Qed.

Lemma join_nested_cons (a : string) (ls : list string) (r : string)
      (rest : list string) :
  ls <> [] ->
  Str.join (String sep EmptyString)
    (a :: Str.join (String sep EmptyString) ls :: r :: rest) =
  Str.join (String sep EmptyString) (a :: ls ++ r :: rest).
Proof.
  intros Hne. pose proof (join_nested ls r rest Hne) as H.
  destruct ls as [|l ls]; [contradiction|].
  unfold Str.join in *.
  change (String.concat (String sep EmptyString)
            (a :: String.concat (String sep EmptyString) (l :: ls) :: r :: rest))
    with (a ++ String sep EmptyString ++
          String.concat (String sep EmptyString)
            (String.concat (String sep EmptyString) (l :: ls) :: r :: rest)).
  now rewrite H.
Qed.

Lemma count_trimStart_le (c : ascii) (s : string) :
  (Str.count c (Str.trimStart s) <= Str.count c s)%nat.
Proof.
  induction s as [|a r IH]; simpl; [lia|].
  destruct (Str.is_ws a); simpl; lia.
Qed.

Lemma count_trimEnd_le (c : ascii) (s : string) :
  (Str.count c (Str.trimEnd s) <= Str.count c s)%nat.
Proof.
  induction s as [|a r IH]; simpl; [lia|].
  destruct (Str.trimEnd r) as [|b t] eqn:E.
  - destruct (Str.is_ws a); simpl; lia.
  - change (Str.count c (String a (String b t)))
      with ((if Ascii.eqb a c then 1 else 0) + Str.count c (String b t))%nat.
    lia.
Qed.

Lemma count_trim_zero (c : ascii) (s : string) :
  Str.count c s = 0%nat -> Str.count c (Str.trim s) = 0%nat.
Proof.
  intros H. unfold Str.trim.
  pose proof (count_trimEnd_le c (Str.trimStart s)).
  pose proof (count_trimStart_le c s). lia.
Qed.

Lemma split_parts_keep (c : ascii) (s : string) :
  Str.count c s = 0%nat ->
  Forall (fun part => Str.count c part = 0%nat) (Str.split sep s).
Proof.
  induction s as [|a r IH]; simpl; intros H; [repeat constructor|].
  assert (Ascii.eqb a c = false /\ Str.count c r = 0%nat) as [Ha Hr]
    by (destruct (Ascii.eqb a c); [discriminate | auto]).
  specialize (IH Hr).
  destruct (Ascii.eqb a sep); [constructor; auto|].
  destruct (Str.split sep r) as [|part parts]; simpl.
  - repeat constructor. simpl. now rewrite Ha.
  - inversion IH; subst. constructor; [|assumption].
    simpl. rewrite Ha. assumption.
Qed.

End LineFacts.

Lemma count_digits (d : Decimal.uint) :
  Str.count "010"%char (NilEmpty.string_of_uint d) = 0%nat.
Proof. induction d; simpl; assumption || reflexivity. Qed.

Lemma count_of_nat (n : nat) : Str.count "010"%char (Str.of_nat n) = 0%nat.
Proof.
  unfold Str.of_nat, NilZero.string_of_uint.
  destruct (Nat.to_uint n) eqn:E; try reflexivity;
    rewrite <- E; apply count_digits.
Qed.

(** ** The create-menu template *)

Lemma numbered_length (items : list string) (idx : nat) :
  length (Prompts.numbered items idx) = length items.
Proof.
  revert idx. induction items as [|x r IH]; intros idx; simpl; [|rewrite IH];
    reflexivity.
Qed.

Lemma numbered_nth (items : list string) (idx i : nat) :
  (i < length items)%nat ->
  nth i (Prompts.numbered items idx) EmptyString =
    Str.of_nat (idx + i + 1) ++ ". " ++ nth i items EmptyString.
Proof.
  revert idx i. induction items as [|x r IH]; intros idx i Hi; simpl in Hi.
  - lia.
  - destruct i as [|i]; simpl.
    + now rewrite Nat.add_0_r.
    + rewrite IH by lia. do 2 f_equal. lia.
Qed.

Lemma numbered_clean (items : list string) (idx : nat) :
  Forall (fun item => Str.count "010"%char item = 0%nat) items ->
  Forall (fun line => Str.count "010"%char line = 0%nat)
    (Prompts.numbered items idx).
Proof.
  intros H. revert idx. induction H as [|item items Hitem _ IH]; intros idx;
    cbn [Prompts.numbered]; constructor; [|apply IH].
  rewrite !count_app, count_of_nat, Hitem. reflexivity.
Qed.

Lemma menu_tail_clean :
  Forall (fun line => Str.count "010"%char line = 0%nat) Prompts.menu_tail.
Proof.
  apply Forall_forall. intros line Hin.
  assert (forallb (fun l => Nat.eqb (Str.count "010"%char l) 0)
            Prompts.menu_tail = true) as H by (vm_compute; reflexivity).
  rewrite forallb_forall in H. apply Nat.eqb_eq. now apply H.
Qed.

(** C7. For [menu_name] Ops and [menu_items] [Close, Reload, Exit],
    [getPrompt] returns one message whose text lists, below the first line
    of the template, exactly [1. Close], [2. Reload], [3. Exit] in that
    order.  In general, for a [menu_name] that renders as the text [m] and
    a [menu_items] string [s], the single message holds the first line of
    the template, the list and the fixed rest; the list has one line per
    piece of [s] between commas, and line number [i] (from 0) is
    [i+1. item] for the trimmed piece number [i], in input order.  When
    [m] and [s] hold no line feed, the lines of the text are exactly the
    first line, these numbered lines, and the lines of the fixed rest. *)
Theorem create_menu_enumerates :
  (forall h tr,
      Prompts.getPrompt "create-menu"
        (Some [("menu_name", VStr "Ops");
               ("menu_items", VStr "Close, Reload, Exit")]) h tr =
        (Return
           {| Prompts.messages :=
                [ {| Prompts.role := "user";
                     Prompts.content :=
                       {| Prompts.type := "text";
                          Prompts.text :=
                            Str.join Str.nl
                              (Prompts.menu_head "Ops" ::
                               "1. Close" :: "2. Reload" :: "3. Exit" ::
                               Prompts.menu_tail) |} |} ] |},
         tr))
  /\ (forall o m s h tr,
         toString (get o "menu_name") = Some m ->
         get o "menu_items" = VStr s ->
         exists text,
           Prompts.getPrompt "create-menu" (Some o) h tr =
             (Return
                {| Prompts.messages :=
                     [ {| Prompts.role := "user";
                          Prompts.content :=
                            {| Prompts.type := "text";
                               Prompts.text := text |} |} ] |},
              tr)
           /\ text =
              Prompts.menu_head m ++ Str.nl ++
              Str.join Str.nl
                (Prompts.numbered (map Str.trim (Str.split ","%char s)) 0) ++
              Str.nl ++ Str.join Str.nl Prompts.menu_tail
           /\ length (Prompts.numbered (map Str.trim (Str.split ","%char s)) 0) =
              length (Str.split ","%char s)
           /\ (forall i,
                  (i < length (Str.split ","%char s))%nat ->
                  nth i
                    (Prompts.numbered (map Str.trim (Str.split ","%char s)) 0)
                    EmptyString =
                    Str.of_nat (i + 1) ++ ". " ++
                    Str.trim (nth i (Str.split ","%char s) EmptyString))
           /\ (Str.count "010"%char m = 0%nat ->
               Str.count "010"%char s = 0%nat ->
               Str.split "010"%char text =
                 (Prompts.menu_head m ::
                  Prompts.numbered (map Str.trim (Str.split ","%char s)) 0 ++
                  Prompts.menu_tail)%list)).
Proof.
  split.
  - intros h tr. reflexivity.
  - intros o m s h tr Hname Hitems.
    exists (Str.join Str.nl
              (Prompts.menu_head m ::
               Str.join Str.nl
                 (Prompts.numbered (map Str.trim (Str.split ","%char s)) 0) ::
               Prompts.menu_tail)).
    split; [|split; [|split; [|split]]].
    + run_handler.
      unfold Prompts.create_menu, Prompts.destructure, bind, ret, render.
      rewrite Hitems. cbn [Prompts.menu_items_split ret]. rewrite Hname.
      reflexivity.
    + reflexivity.
    + now rewrite numbered_length, length_map.
    + intros i Hi. rewrite numbered_nth by now rewrite length_map.
      rewrite <- (map_nth Str.trim). reflexivity.
    + intros Hm Hs.
      set (items := map Str.trim (Str.split ","%char s)).
      assert (Prompts.numbered items 0 <> []) as Hne.
      { intros E. apply (f_equal (@length string)) in E.
        unfold items in E.
        rewrite numbered_length, length_map, split_length in E.
        discriminate. }
      change Str.nl with (String "010"%char EmptyString).
      unfold Prompts.menu_tail at 1.
      rewrite (join_nested_cons "010"%char _ _ _ _ Hne).
      fold Prompts.menu_tail.
      apply split_join; [discriminate|].
      constructor.
      * unfold Prompts.menu_head. rewrite !count_app, Hm. reflexivity.
      * apply Forall_app. split; [|apply menu_tail_clean].
        apply numbered_clean. unfold items. apply Forall_map.
        eapply Forall_impl; [|apply (split_parts_keep ","%char "010"%char s Hs)].
        intros part. apply count_trim_zero.
Qed.

Lemma create_menu_enumerates_witness :
  Str.split "010"%char
    (Prompts.menu_head "Ops" ++ Str.nl ++
     Str.join Str.nl
       (Prompts.numbered
          (map Str.trim (Str.split ","%char "Close, Reload, Exit")) 0) ++
     Str.nl ++ Str.join Str.nl Prompts.menu_tail) =
    (Prompts.menu_head "Ops" :: "1. Close" :: "2. Reload" :: "3. Exit" ::
     Prompts.menu_tail).
Proof.
  destruct (proj2 create_menu_enumerates
              [("menu_name", VStr "Ops");
               ("menu_items", VStr "Close, Reload, Exit")]
              "Ops" "Close, Reload, Exit"
              (example_host [] (fun _ => Throw ENOENT)) []
              eq_refl eq_refl)
    as [text [_ [-> [_ [_ Hlines]]]]].
  apply Hlines; reflexivity.
Defined.

(** ** The configuration check *)

Section ConfigCheck.

Lemma count_trimStart (c : ascii) (s : string) :
  Str.is_ws c = false -> Str.count c (Str.trimStart s) = Str.count c s.
Proof.
  intros Hc. induction s as [|a r IH]; simpl; [reflexivity|].
  destruct (Str.is_ws a) eqn:Ha; [|reflexivity].
  destruct (Ascii.eqb_spec a c) as [->|_]; [congruence | exact IH].
Qed.

Lemma count_trimEnd (c : ascii) (s : string) :
  Str.is_ws c = false -> Str.count c (Str.trimEnd s) = Str.count c s.
Proof.
  intros Hc. induction s as [|a r IH]; simpl; [reflexivity|].
  destruct (Str.trimEnd r) as [|b r'] eqn:E.
  - simpl in IH. rewrite <- IH.
    destruct (Str.is_ws a) eqn:Ha; simpl.
    + destruct (Ascii.eqb_spec a c) as [->|_]; [congruence | reflexivity].
    + reflexivity.
  - change (Str.count c (String a (String b r')))
      with ((if Ascii.eqb a c then 1 else 0) + Str.count c (String b r'))%nat.
    now rewrite IH.
Qed.

Lemma count_trim (c : ascii) (s : string) :
  Str.is_ws c = false -> Str.count c (Str.trim s) = Str.count c s.
Proof.
  intros Hc. unfold Str.trim.
  now rewrite count_trimEnd, count_trimStart.
Qed.

Lemma odd_mod2 (n : nat) : negb (Nat.eqb (Nat.modulo n 2) 0) = Nat.odd n.
Proof.
  destruct (Nat.odd n) eqn:E.
  - apply Nat.odd_spec in E as [m ->].
    replace (2 * m + 1)%nat with (1 + m * 2)%nat by lia.
    now rewrite Nat.Div0.mod_add.
  - assert (Nat.even n = true) as H by (now rewrite <- Nat.negb_odd, E).
    apply Nat.even_spec in H as [m ->].
    replace (2 * m)%nat with (0 + m * 2)%nat by lia.
    now rewrite Nat.Div0.mod_add.
Qed.

Lemma unmatched_quotes_trim (line : string) :
  Tools.unmatched_quotes (Str.trim line) = Nat.odd (Str.count "034"%char line).
Proof.
  unfold Tools.unmatched_quotes.
  now rewrite odd_mod2, count_trim by reflexivity.
Qed.

Lemma check_line_issues (line : string) (idx : nat) (errors : list string) :
  Tools.check_line line idx errors =
    (errors ++ line_issues (S idx) line)%list.
Proof.
  unfold Tools.check_line, line_issues, push.
  rewrite unmatched_quotes_trim, Nat.add_1_r.
  destruct (Nat.odd _), (Tools.typo_match _); simpl;
    rewrite <- ?app_assoc, ?app_nil_r; reflexivity.
Qed.

Lemma forEach_check_issues (lines : list string) (idx : nat)
      (errors : list string) :
  Tools.forEach_check lines idx errors =
    (errors ++ issues_from idx lines)%list.
Proof.
  revert idx errors. induction lines as [|line rest IH]; intros idx errors;
    simpl.
  - now rewrite app_nil_r.
  - now rewrite IH, check_line_issues, <- app_assoc.
Qed.

Lemma line_issues_nil (n : nat) (line : string) :
  line_issues n line = [] <-> line_ok line.
Proof.
  unfold line_issues, line_ok. rewrite <- Nat.negb_odd.
  destruct (Nat.odd _), (Tools.typo_match _); simpl;
    intuition discriminate.
Qed.

Lemma issues_from_nil (idx : nat) (lines : list string) :
  issues_from idx lines = [] <-> Forall line_ok lines.
Proof.
  revert idx. induction lines as [|line rest IH]; intros idx; simpl.
  - intuition constructor.
  - split.
    + intros H. apply app_eq_nil in H as [H1 H2].
      constructor; [now apply (line_issues_nil (S idx)) | now apply (IH (S idx))].
    + intros H. inversion H; subst.
      apply (line_issues_nil (S idx)) in H2 as ->.
      now apply IH.
Qed.

Lemma validation_text_valid (lines errors : list string) :
  Tools.validation_text lines errors =
    "Configuration appears valid (" ++ Str.of_nat (length lines) ++
    " lines checked)"
  <-> errors = [].
Proof.
  unfold Tools.validation_text. destruct errors as [|x r]; simpl.
  - tauto.
  - split; discriminate.
Qed.

End ConfigCheck.

(** C10, as the code has it.  When the configuration file is read,
    [fvwm_validate_config] reports it as valid, with the number of lines
    checked, if and only if every line holds an even number of double
    quotes and no trimmed line starts with DestroyFun, AddToFun, DestroyMen
    or AddToMen followed by white space.  Otherwise the report counts and
    lists one issue for every check a line fails, with the 1-based number of
    the line, in line order: a line that fails both checks is listed twice,
    the quotes first. *)
Theorem validate_config_report :
  forall (args : Obj) (h : Host) (tr : list Call) (config : string),
    fs_readFile h tr (config_path h args) = Return config ->
    Tools.executeTool "fvwm_validate_config" args h tr =
      (Return (Tools.text_result
                 (Tools.validation_text
                    (Str.split "010"%char config)
                    (issues_from 0 (Str.split "010"%char config)))),
       (tr ++ [ReadFile (config_path h args)])%list)
    /\ (Tools.validation_text
          (Str.split "010"%char config)
          (issues_from 0 (Str.split "010"%char config)) =
          "Configuration appears valid (" ++
          Str.of_nat (length (Str.split "010"%char config)) ++
          " lines checked)"
        <-> Forall line_ok (Str.split "010"%char config))
    /\ (~ Forall line_ok (Str.split "010"%char config) ->
        Tools.validation_text
          (Str.split "010"%char config)
          (issues_from 0 (Str.split "010"%char config)) =
          "Found " ++
          Str.of_nat (length (issues_from 0 (Str.split "010"%char config))) ++
          " potential issues:" ++ Str.nl ++
          Str.join Str.nl (issues_from 0 (Str.split "010"%char config))).
Proof.
  intros args h tr config Hread. repeat split.
  - run_handler. unfold Tools.fvwm_validate_config, bind, try_catch, pathJoin.
    unfold config_path in *.
    destruct (truthy (get args "config_path")); cbn [ret readFile];
      rewrite Hread, forEach_check_issues; reflexivity.
  - intros H. now apply validation_text_valid, issues_from_nil in H.
  - intros H. now apply validation_text_valid, issues_from_nil.
  - intros H. unfold Tools.validation_text.
    destruct (issues_from 0 _) eqn:E; [|reflexivity].
    exfalso. apply H. now apply issues_from_nil in E.
Qed.

Lemma validate_config_report_witness :
  Tools.executeTool "fvwm_validate_config" []
    (example_host
       [("/home/u/.fvwm/config",
         "DestroyFunc Tile" ++ Str.nl ++ "AddToFunc Tile I Maximize")]
       (fun _ => Throw ENOENT)) [] =
    (Return (Tools.text_result "Configuration appears valid (2 lines checked)"),
     [ReadFile (VStr "/home/u/.fvwm/config")]).
Proof.
  apply (validate_config_report []
           (example_host
              [("/home/u/.fvwm/config",
                "DestroyFunc Tile" ++ Str.nl ++ "AddToFunc Tile I Maximize")]
              (fun _ => Throw ENOENT)) []
           ("DestroyFunc Tile" ++ Str.nl ++ "AddToFunc Tile I Maximize")).
  reflexivity.
Defined.

(** C10 fails as stated: a file of one line that fails both checks gets two
    issues, not one. *)
Lemma validate_config_two_issues_one_line :
  length (filter offending
            (Str.split "010"%char ("AddToFun " ++ Str.dq ++ "x"))) = 1%nat
  /\ Tools.executeTool "fvwm_validate_config" []
       (example_host [("/home/u/.fvwm/config", "AddToFun " ++ Str.dq ++ "x")]
          (fun _ => Throw ENOENT)) [] =
       (Return (Tools.text_result
                  ("Found 2 potential issues:" ++ Str.nl ++
                   "Line 1: Unmatched double quotes" ++ Str.nl ++
                   "Line 1: Possible typo in command")),
        [ReadFile (VStr "/home/u/.fvwm/config")]).
Proof. split; reflexivity. Qed.

(* ================================================================== *)
(** * Further properties of the handlers *)

(** ** Tools whose adapter failure is reported *)

Lemma switch_some {A} (x : string) (cs : list (string * option A)) (v : A) :
  switch x cs None = Some v -> In x (map fst cs).
Proof.
  intros H. destruct (in_dec string_dec x (map fst cs)) as [Hin|Hout];
    [exact Hin|].
  rewrite switch_default in H by exact Hout. discriminate.
Qed.

(** X1. For the five tools that query the window manager or the
    configuration without a [try] of their own, a failure of the adapter
    call that serves the request is reported: the result is the [isError]
    envelope whose text names the tool and carries the rendering of the
    failure, after that one call.  Only that call is assumed to fail. *)
Theorem tool_adapter_failure_flagged :
  forall (name : string) (args : Obj) (h : Host) (tr : list Call)
         (c : Call) (e : JsError),
    tool_call h name args = Some c ->
    fails h tr c e ->
    Tools.executeTool name args h tr =
      (Return (error_envelope
                 ("Error executing tool '" ++ name ++ "': " ++
                  error_toString e)),
       (tr ++ [c])%list).
Proof.
  intros name args h tr c e Hcall Hfail.
  pose proof (switch_some _ _ _ Hcall) as Hin. simpl in Hin.
  unfold tool_call in Hcall.
  repeat (destruct Hin as [<-|Hin]); try contradiction;
    cbn [switch String.eqb Ascii.eqb Bool.eqb] in Hcall;
    run_handler;
    unfold Tools.fvwm_get_window_info, Tools.fvwm_get_monitor_layout,
      Tools.fvwm_test_function, Tools.fvwm_get_keybindings,
      Tools.fvwm_get_desktop_info, bind, pathJoin, readFile, execAsync,
      render;
    fold (main_config h).
  - destruct (truthy (get args "window_id")).
    + destruct (toString (get args "window_id")) as [w|]; [|discriminate].
      injection Hcall as <-. cbn [fails] in Hfail. cbn [ret].
      fold (window_command w). rewrite Hfail. reflexivity.
    + injection Hcall as <-. cbn [fails] in Hfail. cbn [ret].
      fold all_windows_command. rewrite Hfail. reflexivity.
  - injection Hcall as <-. cbn [fails] in Hfail. rewrite Hfail. reflexivity.
  - injection Hcall as <-. cbn [fails] in Hfail. rewrite Hfail. reflexivity.
  - injection Hcall as <-. cbn [fails] in Hfail. rewrite Hfail. reflexivity.
  - injection Hcall as <-. cbn [fails] in Hfail.
    fold desktop_info_command. rewrite Hfail. reflexivity.
Qed.

Lemma tool_adapter_failure_flagged_witness :
  Tools.executeTool "fvwm_get_desktop_info" []
    (example_host [("/home/u/.fvwm/config", "Key Q A M GotoDesk 0 0")]
       (fun cmd => Throw (exit_failure cmd "no display"))) [] =
    (Return (error_envelope
               ("Error executing tool 'fvwm_get_desktop_info': " ++
                error_toString (exit_failure desktop_info_command "no display"))),
     [Exec desktop_info_command]).
Proof.
  apply (tool_adapter_failure_flagged "fvwm_get_desktop_info" []
           (example_host [("/home/u/.fvwm/config", "Key Q A M GotoDesk 0 0")]
              (fun cmd => Throw (exit_failure cmd "no display")))
           [] (Exec desktop_info_command)
           (exit_failure desktop_info_command "no display")).
  - reflexivity.
  - reflexivity.
Defined.

(** ** Tools that never report an error *)

(** X2. [fvwm_validate_config] and [smart_tile_debug] never set the error
    flag: whatever the arguments and whatever the host answers, the result
    is a plain text envelope.  A configuration that cannot be read and a
    log that cannot be shown are told in the text only. *)
Theorem tools_without_error_flag :
  forall (name : string) (args : Obj) (h : Host) (tr : list Call),
    name = "fvwm_validate_config" \/ name = "smart_tile_debug" ->
    exists txt tr',
      Tools.executeTool name args h tr = (Return (Tools.text_result txt), tr').
Proof.
  intros name args h tr [-> | ->]; run_handler.
  - unfold Tools.fvwm_validate_config, bind, try_catch, pathJoin, readFile, ret.
    destruct (truthy (get args "config_path"));
      match goal with
      | |- context [fs_readFile h tr ?p] => destruct (fs_readFile h tr p)
      end; eauto.
  - unfold Tools.smart_tile_debug, bind, try_catch, pathJoin, execAsync,
      render, ret, throw.
    destruct (toString (val_or (get args "lines") (VNum true "50")));
      [|eauto].
    match goal with
    | |- context [child_exec h tr ?c] =>
        destruct (child_exec h tr c) as [[out err]|e]
    end; eauto.
Qed.

Lemma tools_without_error_flag_witness :
  exists txt tr',
    Tools.executeTool "smart_tile_debug" [("lines", VNum true "5")]
      (example_host [] (fun _ => Throw ENOENT)) [] =
      (Return (Tools.text_result txt), tr').
Proof.
  apply (tools_without_error_flag "smart_tile_debug"). now right.
Defined.

(** X3. [fvwm_restart] sends the restart command once and answers
    [FVWM3 restart command sent] whether the command succeeds or fails; the
    arguments are not looked at. *)
Theorem fvwm_restart_always_sent :
  forall (args : Obj) (h : Host) (tr : list Call),
    Tools.executeTool "fvwm_restart" args h tr =
      (Return (Tools.text_result "FVWM3 restart command sent"),
       (tr ++ [Exec ("FvwmCommand " ++ Str.dq ++ "Restart" ++ Str.dq)])%list).
Proof.
  intros args h tr. run_handler.
  unfold Tools.fvwm_restart, bind, try_catch, execAsync, ret.
  destruct (child_exec h tr _) as [[out err]|e]; reflexivity.
Qed.

(** ** The command line of [fvwm_execute] *)

Lemma quotes_guarded_escape (s : string) (escaped : bool) :
  quotes_guarded escaped (Str.escape_quotes s) = true.
Proof.
  revert escaped. induction s as [|c r IH]; intros escaped; simpl;
    [reflexivity|].
  destruct (Ascii.eqb_spec c "034"%char) as [->|Hc].
  - simpl. apply IH.
  - simpl. apply Ascii.eqb_neq in Hc. rewrite Hc. apply IH.
Qed.

Lemma length_escape_quotes (s : string) :
  String.length (Str.escape_quotes s) =
    (String.length s + Str.count "034"%char s)%nat.
Proof.
  induction s as [|c r IH]; simpl; [reflexivity|].
  destruct (Ascii.eqb c "034"%char); simpl; rewrite IH; lia.
Qed.

(** X4. When the command is a string and FvwmCommand succeeds,
    [fvwm_execute] runs exactly one process, whose command line holds the
    command between double quotes with a backslash put before every double
    quote of the command and nothing else changed in length; the text of the
    result is the standard output, or the standard error when that is
    empty, or a fixed text when both are. *)
Theorem fvwm_execute_success :
  forall (args : Obj) (s : string) (h : Host) (tr : list Call)
         (stdout stderr : string),
    get args "command" = VStr s ->
    child_exec h tr (fvwm_command s) = Return (stdout, stderr) ->
    Tools.executeTool "fvwm_execute" args h tr =
      (Return (Tools.text_result
                 (if Str.nonempty stdout then stdout
                  else if Str.nonempty stderr then stderr
                  else "Command executed successfully")),
       (tr ++ [Exec ("FvwmCommand " ++ Str.dq ++ Str.escape_quotes s ++
                     Str.dq)])%list)
    /\ quotes_guarded false (Str.escape_quotes s) = true
    /\ String.length (Str.escape_quotes s) =
       (String.length s + Str.count "034"%char s)%nat.
Proof.
  intros args s h tr stdout stderr Hcmd Hexec. repeat split.
  - run_handler. unfold Tools.fvwm_execute, try_catch, bind.
    rewrite Hcmd. cbn [Tools.command_replace ret execAsync].
    fold (fvwm_command s). rewrite Hexec. unfold Str.or_else.
    destruct stdout, stderr; reflexivity.
  - apply quotes_guarded_escape.
  - apply length_escape_quotes.
Qed.

Lemma fvwm_execute_success_witness :
  Tools.executeTool "fvwm_execute"
    [("command", VStr ("Exec xmessage " ++ Str.dq ++ "hi" ++ Str.dq))]
    (example_host [] (fun _ => Return (EmptyString, "warning"))) [] =
    (Return (Tools.text_result "warning"),
     [Exec ("FvwmCommand " ++ Str.dq ++ "Exec xmessage " ++ Str.bs ++ Str.dq ++
            "hi" ++ Str.bs ++ Str.dq ++ Str.dq)]).
Proof.
  apply (fvwm_execute_success
           [("command", VStr ("Exec xmessage " ++ Str.dq ++ "hi" ++ Str.dq))]
           ("Exec xmessage " ++ Str.dq ++ "hi" ++ Str.dq)
           (example_host [] (fun _ => Return (EmptyString, "warning"))) []
           EmptyString "warning"); reflexivity.
Defined.

(** ** Looking up a function in the configuration *)

Lemma includes_middle (pre p post : string) :
  Str.includes (pre ++ p ++ post) p = true.
Proof. apply includes_app_l, includes_self_app. Qed.

(** X5. [fvwm_test_function] searches the configuration for the text
    [DestroyFunc name] or [AddToFunc name] anywhere, so a name is reported
    as existing as soon as a definition starts with it: for a
    [function_name] that renders as the text [fn], whenever the
    configuration holds one of the two keywords followed by [fn] and then
    anything, the answer is that the function exists. *)
Theorem fvwm_test_function_prefix :
  forall (args : Obj) (h : Host) (tr : list Call)
         (fn kw pre post : string),
    toString (get args "function_name") = Some fn ->
    kw = "DestroyFunc " \/ kw = "AddToFunc " ->
    fs_readFile h tr (VStr (main_config h)) =
      Return (pre ++ kw ++ fn ++ post) ->
    Tools.executeTool "fvwm_test_function" args h tr =
      (Return (Tools.text_result
                 ("Function '" ++ fn ++ "' exists in configuration")),
       (tr ++ [ReadFile (VStr (main_config h))])%list).
Proof.
  intros args h tr fn kw pre post Hfn Hkw Hread. run_handler.
  unfold Tools.fvwm_test_function, bind, pathJoin, readFile, render.
  fold (main_config h). rewrite Hread, Hfn. cbn [ret].
  assert (Str.includes (pre ++ kw ++ fn ++ post) (kw ++ fn) = true) as Hinc.
  { replace (kw ++ fn ++ post) with ((kw ++ fn) ++ post).
    - apply includes_middle.
    - clear. induction kw; simpl; congruence. }
  destruct Hkw as [-> | ->]; rewrite Hinc; rewrite ?orb_true_r; reflexivity.
Qed.

Lemma fvwm_test_function_prefix_witness :
  Tools.executeTool "fvwm_test_function" [("function_name", VStr "Smart")]
    (example_host
       [("/home/u/.fvwm/config", "DestroyFunc SmartTileLeft")]
       (fun _ => Throw ENOENT)) [] =
    (Return (Tools.text_result "Function 'Smart' exists in configuration"),
     [ReadFile (VStr "/home/u/.fvwm/config")]).
Proof.
  apply (fvwm_test_function_prefix [("function_name", VStr "Smart")]
           (example_host
              [("/home/u/.fvwm/config", "DestroyFunc SmartTileLeft")]
              (fun _ => Throw ENOENT)) []
           "Smart" "DestroyFunc " EmptyString "TileLeft").
  - reflexivity.
  - now left.
  - reflexivity.
Defined.

(** ** Reading and counting the configuration *)

(** X6. When the configuration file cannot be read,
    [fvwm_validate_config] tells so in the text of a plain result,
    [Error reading config:] and the failure, without the error flag. *)
Theorem validate_config_unreadable :
  forall (args : Obj) (h : Host) (tr : list Call) (e : JsError),
    fs_readFile h tr (config_path h args) = Throw e ->
    Tools.executeTool "fvwm_validate_config" args h tr =
      (Return (Tools.text_result
                 ("Error reading config: " ++ error_toString e)),
       (tr ++ [ReadFile (config_path h args)])%list).
Proof.
  intros args h tr e Hread. run_handler.
  unfold Tools.fvwm_validate_config, bind, try_catch, pathJoin.
  unfold config_path in *.
  destruct (truthy (get args "config_path")); cbn [ret readFile];
    rewrite Hread; reflexivity.
Qed.

Lemma validate_config_unreadable_witness :
  Tools.executeTool "fvwm_validate_config"
    [("config_path", VStr "/etc/fvwm3rc")]
    (example_host [] (fun _ => Throw ENOENT)) [] =
    (Return (Tools.text_result
               "Error reading config: Error: ENOENT: no such file or directory"),
     [ReadFile (VStr "/etc/fvwm3rc")]).
Proof.
  apply (validate_config_unreadable [("config_path", VStr "/etc/fvwm3rc")]
           (example_host [] (fun _ => Throw ENOENT)) [] ENOENT).
  reflexivity.
Defined.


Lemma line_issues_length (n : nat) (line : string) :
  (length (line_issues n line) <= 2)%nat.
Proof.
  unfold line_issues.
  destruct (Nat.odd _), (Tools.typo_match _); simpl; lia.
Qed.

Lemma issues_from_length (idx : nat) (lines : list string) :
  (length (issues_from idx lines) <= 2 * length lines)%nat.
Proof.
  revert idx. induction lines as [|line rest IH]; intros idx; simpl; [lia|].
  rewrite length_app.
  pose proof (line_issues_length (S idx) line). specialize (IH (S idx)). lia.
Qed.

Lemma issues_from_numbered (idx : nat) (lines : list string) (issue : string) :
  In issue (issues_from idx lines) ->
  exists k,
    (idx < k <= idx + length lines)%nat /\
    (issue = "Line " ++ Str.of_nat k ++ ": Unmatched double quotes" \/
     issue = "Line " ++ Str.of_nat k ++ ": Possible typo in command").
Proof.
  revert idx. induction lines as [|line rest IH]; intros idx; simpl;
    [contradiction|].
  intros Hin. apply in_app_or in Hin as [Hin|Hin].
  - exists (S idx). split; [lia|]. unfold line_issues in Hin.
    destruct (Nat.odd _), (Tools.typo_match _); simpl in Hin; intuition.
  - destruct (IH (S idx) Hin) as [k [Hk Hissue]]. exists k. split; [lia|assumption].
Qed.

(** X7. The check of a configuration text looks at one line more than the
    text has line feeds (an empty file is one line), raises at most two
    issues per line, and every issue it raises names a line between 1 and
    the number of lines checked. *)
Theorem forEach_check_bounds :
  forall (config : string),
    length (Str.split "010"%char config) = S (Str.count "010"%char config)
    /\ (length (Tools.forEach_check (Str.split "010"%char config) 0 []) <=
        2 * length (Str.split "010"%char config))%nat
    /\ forall issue,
        In issue (Tools.forEach_check (Str.split "010"%char config) 0 []) ->
        exists k,
          (1 <= k <= length (Str.split "010"%char config))%nat /\
          (issue = "Line " ++ Str.of_nat k ++ ": Unmatched double quotes" \/
           issue = "Line " ++ Str.of_nat k ++ ": Possible typo in command").
Proof.
  intros config. rewrite forEach_check_issues. simpl app. repeat split.
  - apply split_length.
  - apply issues_from_length.
  - intros issue Hin.
    destruct (issues_from_numbered 0 _ _ Hin) as [k [Hk Hissue]].
    exists k. split; [lia | assumption].
Qed.

Lemma forEach_check_bounds_witness :
  exists k,
    (1 <= k <= 2)%nat /\
    ("Line 2: Possible typo in command" =
       "Line " ++ Str.of_nat k ++ ": Unmatched double quotes" \/
     "Line 2: Possible typo in command" =
       "Line " ++ Str.of_nat k ++ ": Possible typo in command").
Proof.
  apply (proj2 (proj2 (forEach_check_bounds
                         ("Key F1 A N Menu" ++ Str.nl ++ "AddToMen Root")))
           "Line 2: Possible typo in command").
  vm_compute. now left.
Defined.

(** ** Listing the key bindings *)

Lemma filter_all {A} (f : A -> bool) (l : list A) :
  Forall (fun x => f x = true) l -> filter f l = l.
Proof.
  induction 1 as [|x l Hx _ IH]; simpl; [reflexivity|].
  now rewrite Hx, IH.
Qed.

(** X8. Without a filter (absent, or any falsy value such as the empty
    string), a configuration all of whose lines are [Key] lines comes back
    from [fvwm_get_keybindings] unchanged: the lines are split at the line
    feeds, all kept, and joined again in file order. *)
Theorem fvwm_get_keybindings_verbatim :
  forall (args : Obj) (h : Host) (tr : list Call) (config : string),
    truthy (get args "filter") = false ->
    fs_readFile h tr (VStr (main_config h)) = Return config ->
    Forall (fun line => Str.startsWith (Str.trim line) "Key " = true)
      (Str.split "010"%char config) ->
    Tools.executeTool "fvwm_get_keybindings" args h tr =
      (Return (Tools.text_result config),
       (tr ++ [ReadFile (VStr (main_config h))])%list).
Proof.
  intros args h tr config Hfilter Hread Hkeys. run_handler.
  unfold Tools.fvwm_get_keybindings, bind, pathJoin, readFile.
  fold (main_config h). rewrite Hread, Hfilter. cbn [ret negb orb].
  rewrite (filter_all _ _ Hkeys).
  rewrite filter_all by (apply Forall_forall; reflexivity).
  pose proof (split_length "010"%char config) as Hlen.
  destruct (Str.split "010"%char config) as [|l ls] eqn:E; [discriminate|].
  cbn [length Nat.ltb Nat.leb]. rewrite <- E.
  change Str.nl with (String "010"%char EmptyString).
  now rewrite join_split.
Qed.

Lemma fvwm_get_keybindings_verbatim_witness :
  Tools.executeTool "fvwm_get_keybindings" [("filter", VStr EmptyString)]
    (example_host
       [("/home/u/.fvwm/config",
         "Key Q A M GotoDesk 0 0" ++ Str.nl ++ "  Key W A M GotoDesk 0 1")]
       (fun _ => Throw ENOENT)) [] =
    (Return (Tools.text_result
               ("Key Q A M GotoDesk 0 0" ++ Str.nl ++ "  Key W A M GotoDesk 0 1")),
     [ReadFile (VStr "/home/u/.fvwm/config")]).
Proof.
  apply (fvwm_get_keybindings_verbatim [("filter", VStr EmptyString)]
           (example_host
              [("/home/u/.fvwm/config",
                "Key Q A M GotoDesk 0 0" ++ Str.nl ++ "  Key W A M GotoDesk 0 1")]
              (fun _ => Throw ENOENT)) []
           ("Key Q A M GotoDesk 0 0" ++ Str.nl ++ "  Key W A M GotoDesk 0 1")).
  - reflexivity.
  - reflexivity.
  - vm_compute. repeat (constructor; try reflexivity).
Defined.

(** ** The debug log *)

(** X9. [smart_tile_debug] asks [tail] for 50 lines whenever [lines] is
    absent or falsy, the number 0 included; for a truthy [lines] that
    renders as the text [n] it puts [n] into the command line as it is; in
    both cases it runs that one process and nothing else.  For a truthy
    [lines] whose conversion to text throws, no process is run and the
    answer is the plain text [Debug log not found or empty]. *)
Theorem smart_tile_debug_command :
  forall (args : Obj) (h : Host) (tr : list Call),
    (truthy (get args "lines") = false ->
     exists txt,
       Tools.executeTool "smart_tile_debug" args h tr =
         (Return (Tools.text_result txt),
          (tr ++ [Exec ("tail -n 50 " ++
                        path_join h (os_homedir h)
                          ".fvwm/smart-tile-debug.log")])%list))
    /\ (forall n,
           truthy (get args "lines") = true ->
           toString (get args "lines") = Some n ->
           exists txt,
             Tools.executeTool "smart_tile_debug" args h tr =
               (Return (Tools.text_result txt),
                (tr ++ [Exec ("tail -n " ++ n ++ " " ++
                              path_join h (os_homedir h)
                                ".fvwm/smart-tile-debug.log")])%list))
    /\ (truthy (get args "lines") = true ->
        toString (get args "lines") = None ->
        Tools.executeTool "smart_tile_debug" args h tr =
          (Return (Tools.text_result "Debug log not found or empty"), tr)).
Proof.
  intros args h tr. split; [|split].
  - intros Hfalsy. run_handler.
    unfold Tools.smart_tile_debug, bind, try_catch, pathJoin, execAsync, ret,
      val_or, render.
    rewrite Hfalsy. cbn [toString ret].
    match goal with
    | |- context [child_exec h tr ?c] =>
        destruct (child_exec h tr c) as [[out err]|e]
    end; eauto.
  - intros n Htruthy Hn. run_handler.
    unfold Tools.smart_tile_debug, bind, try_catch, pathJoin, execAsync, ret,
      val_or, render.
    rewrite Htruthy, Hn. cbn [ret].
    match goal with
    | |- context [child_exec h tr ?c] =>
        destruct (child_exec h tr c) as [[out err]|e]
    end; eauto.
  - intros Htruthy Hnone. run_handler.
    unfold Tools.smart_tile_debug, bind, try_catch, val_or, render.
    rewrite Htruthy, Hnone. reflexivity.
Qed.

Lemma smart_tile_debug_command_witness :
  Tools.executeTool "smart_tile_debug"
    [("lines", VObj [("toString", VNull)])]
    (example_host [] (fun _ => Return ("log", EmptyString))) [] =
    (Return (Tools.text_result "Debug log not found or empty"), []).
Proof.
  apply (proj2 (proj2 (smart_tile_debug_command
                         [("lines", VObj [("toString", VNull)])]
                         (example_host [] (fun _ => Return ("log", EmptyString)))
                         []))); reflexivity.
Defined.

(** ** The tile states *)

(** X10. [smart_tile_state] accepts exactly the strings [view] and [clear]
    as [action].  Any other value, a missing one included, gives the
    [isError] envelope and no adapter is called: with [Unknown action:] and
    the text of the value when it renders as text, and with the
    [TypeError] of the conversion when it does not.  With [view] or [clear]
    the error flag is never set, whatever fails. *)
Theorem smart_tile_state_action :
  forall (args : Obj) (h : Host) (tr : list Call),
    (strict_eq (get args "action") "view" = false ->
     strict_eq (get args "action") "clear" = false ->
     (forall a,
         toString (get args "action") = Some a ->
         Tools.executeTool "smart_tile_state" args h tr =
           (Return (error_envelope
                      ("Error executing tool 'smart_tile_state': " ++
                       "Error: Unknown action: " ++ a)),
            tr))
     /\ (toString (get args "action") = None ->
         Tools.executeTool "smart_tile_state" args h tr =
           (Return (conversion_envelope "smart_tile_state"), tr)))
    /\ (strict_eq (get args "action") "view" = true \/
        strict_eq (get args "action") "clear" = true ->
        exists txt tr',
          Tools.executeTool "smart_tile_state" args h tr =
            (Return (Tools.text_result txt), tr')).
Proof.
  intros args h tr. split.
  - intros Hview Hclear. split; [intros a Ha | intros Ha]; run_handler;
      unfold Tools.smart_tile_state, bind, pathJoin, render;
      rewrite Hview, Hclear, Ha; reflexivity.
  - intros Haction. run_handler.
    unfold Tools.smart_tile_state, bind, pathJoin, try_catch.
    destruct (strict_eq (get args "action") "view") eqn:Hview.
    + destruct (truthy (get args "window_id")).
      * destruct (pathJoinVal _ _ h tr) as [[p|e] tr1]; [|cbn; eauto].
        unfold readFile.
        destruct (fs_readFile h tr1 _); [|cbn; eauto].
        destruct (render _ h _) as [[w|e] tr2]; cbn; eauto.
      * unfold execAsync.
        destruct (child_exec h tr _) as [[files err]|e]; [|cbn; eauto].
        destruct (negb (Str.nonempty (Str.trim files))); [cbn; eauto|].
        destruct (Tools.read_states _ _ _ h _) as [[states|e] tr1];
          cbn; eauto.
    + destruct Haction as [Habs|Hclear]; [discriminate|]. rewrite Hclear.
      destruct (truthy (get args "window_id")).
      * destruct (pathJoinVal _ _ h tr) as [[p|e] tr1]; [|cbn; eauto].
        unfold execAsync.
        destruct (child_exec h tr1 _) as [[out err]|e]; [|cbn; eauto].
        destruct (render _ h _) as [[w|e] tr2]; cbn; eauto.
      * unfold execAsync.
        destruct (child_exec h tr _) as [[out err]|e]; cbn; eauto.
Qed.

Lemma smart_tile_state_action_witness :
  Tools.executeTool "smart_tile_state" [("action", VStr "View")]
    (example_host [] (fun _ => Throw ENOENT)) [] =
    (Return (error_envelope
               "Error executing tool 'smart_tile_state': Error: Unknown action: View"),
     []).
Proof.
  apply (proj1 (proj1 (smart_tile_state_action [("action", VStr "View")]
                         (example_host [] (fun _ => Throw ENOENT)) [])
                  eq_refl eq_refl) "View").
  reflexivity.
Defined.

Section ViewStates.

Variable h : Host.
Variable dir : string.

Lemma read_states_readable (content : string -> string) :
  forall (files states : list string) (tr : list Call),
    listed_readable h dir (filter Str.nonempty files) content ->
    Tools.read_states dir files states h tr =
      (Return
         (app states (map (state_line content) (filter Str.nonempty files))),
       app tr
         (map (fun f => ReadFile (VStr (path_join h dir f)))
            (filter Str.nonempty files))).
Proof.
  intros files.
  induction files as [|file rest IH]; intros states tr Hread; simpl.
  - now rewrite !List.app_nil_r.
  - simpl in Hread. destruct (Str.nonempty file); [|now apply IH].
    unfold bind, pathJoin, readFile.
    rewrite (Hread file tr) by now left.
    rewrite IH by (intros f tr' Hin; apply Hread; now right).
    unfold push, state_line. simpl. now rewrite <- !List.app_assoc.
Qed.

Lemma read_states_unreadable (f : string) (e : JsError) :
  Str.nonempty f = true ->
  (forall tr, fs_readFile h tr (VStr (path_join h dir f)) = Throw e) ->
  forall (files states : list string) (tr : list Call),
    In f files ->
    exists e' tr', Tools.read_states dir files states h tr = (Throw e', tr').
Proof.
  intros Hf Hfail files.
  induction files as [|file rest IH]; intros states tr Hin; simpl in *;
    [contradiction|].
  destruct (String.eqb_spec file f) as [->|Hne].
  - rewrite Hf. unfold bind, pathJoin, readFile. rewrite Hfail. eauto.
  - destruct Hin as [Heq|Hin]; [contradiction|].
    destruct (Str.nonempty file); [|now apply IH].
    unfold bind, pathJoin, readFile.
    destruct (fs_readFile h tr _); [now apply IH | eauto].
Qed.

End ViewStates.

(** X11. Viewing all tile states when the listing succeeds and the listed
    files can be read: the text holds one line [name: state] for every name
    of the listing that is not empty, in the order of the listing, the
    state trimmed; the listing is run once and every such file is read
    once, in that order.  A listing that is blank gives
    [No tile states found].  Nothing is assumed of other files. *)
Theorem smart_tile_state_view_all :
  forall (args : Obj) (h : Host) (tr : list Call)
         (content : string -> string) (files err : string),
    get args "action" = VStr "view" ->
    truthy (get args "window_id") = false ->
    child_exec h tr
      ("ls -1 " ++ tile_state_dir h ++ " 2>/dev/null || echo " ++
       Str.dq ++ Str.dq) = Return (files, err) ->
    listed_readable h (tile_state_dir h) (listed_files files) content ->
    Tools.executeTool "smart_tile_state" args h tr =
      (Return (Tools.text_result
                 (if Str.nonempty (Str.trim files)
                  then Str.join Str.nl
                         (map (state_line content) (listed_files files))
                  else "No tile states found")),
       (tr ++
        Exec ("ls -1 " ++ tile_state_dir h ++ " 2>/dev/null || echo " ++
              Str.dq ++ Str.dq) ::
        map (fun f => ReadFile (VStr (path_join h (tile_state_dir h) f)))
          (listed_files files))%list).
Proof.
  intros args h tr content files err Haction Hwid Hls Hread. run_handler.
  unfold Tools.smart_tile_state, bind, pathJoin, try_catch, execAsync.
  fold (tile_state_dir h). rewrite Haction, Hwid. cbn [strict_eq String.eqb Ascii.eqb Bool.eqb].
  rewrite Hls. unfold listed_files in *.
  destruct (Str.nonempty (Str.trim files)) eqn:Hblank; cbn [negb].
  - rewrite (read_states_readable h (tile_state_dir h) content _ _ _ Hread).
    cbn [ret app]. now rewrite <- List.app_assoc.
  - destruct (Str.trim files); [|discriminate]. reflexivity.
Qed.

Lemma smart_tile_state_view_all_witness :
  Tools.executeTool "smart_tile_state" [("action", VStr "view")]
    (example_host
       [("/home/u/.fvwm/tile-state/0x1", "left" ++ Str.nl);
        ("/home/u/.fvwm/tile-state/0x2", "right" ++ Str.nl)]
       (fun _ => Return ("0x1" ++ Str.nl ++ "0x2" ++ Str.nl, EmptyString)))
    [] =
    (Return (Tools.text_result ("0x1: left" ++ Str.nl ++ "0x2: right")),
     [Exec ("ls -1 /home/u/.fvwm/tile-state 2>/dev/null || echo " ++
            Str.dq ++ Str.dq);
      ReadFile (VStr "/home/u/.fvwm/tile-state/0x1");
      ReadFile (VStr "/home/u/.fvwm/tile-state/0x2")]).
Proof.
  apply (smart_tile_state_view_all [("action", VStr "view")]
           (example_host
              [("/home/u/.fvwm/tile-state/0x1", "left" ++ Str.nl);
               ("/home/u/.fvwm/tile-state/0x2", "right" ++ Str.nl)]
              (fun _ => Return ("0x1" ++ Str.nl ++ "0x2" ++ Str.nl, EmptyString)))
           []
           (fun f => if String.eqb f "0x1"
                     then "left" ++ Str.nl else "right" ++ Str.nl)
           ("0x1" ++ Str.nl ++ "0x2" ++ Str.nl) EmptyString).
  - reflexivity.
  - reflexivity.
  - reflexivity.
  - intros f tr Hin. vm_compute in Hin.
    destruct Hin as [<-|[<-|[]]]; reflexivity.
Defined.

(** X12. Viewing all tile states is all or nothing: when one name of the
    listing cannot be read, the states already collected are dropped and
    the answer is the plain text [No tile states found], without the error
    flag. *)
Theorem smart_tile_state_view_unreadable :
  forall (args : Obj) (h : Host) (tr : list Call)
         (files err f : string) (e : JsError),
    get args "action" = VStr "view" ->
    truthy (get args "window_id") = false ->
    child_exec h tr
      ("ls -1 " ++ tile_state_dir h ++ " 2>/dev/null || echo " ++
       Str.dq ++ Str.dq) = Return (files, err) ->
    In f (listed_files files) ->
    (forall tr', fs_readFile h tr' (VStr (path_join h (tile_state_dir h) f)) =
                 Throw e) ->
    exists tr',
      Tools.executeTool "smart_tile_state" args h tr =
        (Return (Tools.text_result "No tile states found"), tr').
Proof.
  intros args h tr files err f e Haction Hwid Hls Hin Hfail. run_handler.
  unfold Tools.smart_tile_state, bind, pathJoin, try_catch, execAsync.
  fold (tile_state_dir h). rewrite Haction, Hwid.
  cbn [strict_eq String.eqb Ascii.eqb Bool.eqb]. rewrite Hls.
  destruct (negb (Str.nonempty (Str.trim files))); [cbn; eauto|].
  unfold listed_files in Hin. apply filter_In in Hin as [Hin Hf].
  destruct (read_states_unreadable h (tile_state_dir h) f e Hf Hfail
              _ [] (tr ++ [Exec ("ls -1 " ++ tile_state_dir h ++
                                 " 2>/dev/null || echo " ++ Str.dq ++ Str.dq)])%list
              Hin) as [e' [tr' Hthrow]].
  rewrite Hthrow. cbn. eauto.
Qed.

Lemma smart_tile_state_view_unreadable_witness :
  exists tr',
    Tools.executeTool "smart_tile_state" [("action", VStr "view")]
      (example_host
         [("/home/u/.fvwm/tile-state/0x1", "left")]
         (fun _ => Return ("0x1" ++ Str.nl ++ "0x2" ++ Str.nl, EmptyString)))
      [] =
      (Return (Tools.text_result "No tile states found"), tr').
Proof.
  apply (smart_tile_state_view_unreadable [("action", VStr "view")]
           (example_host
              [("/home/u/.fvwm/tile-state/0x1", "left")]
              (fun _ => Return ("0x1" ++ Str.nl ++ "0x2" ++ Str.nl, EmptyString)))
           [] ("0x1" ++ Str.nl ++ "0x2" ++ Str.nl) EmptyString "0x2" ENOENT).
  - reflexivity.
  - reflexivity.
  - reflexivity.
  - vm_compute. tauto.
  - intros tr'. reflexivity.
Defined.

(** X13. Clearing the tile states runs one [rm -f]: on the whole directory
    when no window is given, on the file of the window when [window_id] is
    a string that is not empty.  A failure of the removal is told in the
    text of a plain result, [Error clearing states:] and the failure,
    without the error flag. *)
Theorem smart_tile_state_clear :
  forall (args : Obj) (h : Host) (tr : list Call),
    get args "action" = VStr "clear" ->
    (truthy (get args "window_id") = false ->
     Tools.executeTool "smart_tile_state" args h tr =
       (Return (Tools.text_result
                  (match child_exec h tr ("rm -f " ++ tile_state_dir h ++ "/*") with
                   | Return _ => "Cleared all tile states"
                   | Throw e => "Error clearing states: " ++ error_toString e
                   end)),
        (tr ++ [Exec ("rm -f " ++ tile_state_dir h ++ "/*")])%list))
    /\ (forall w,
        get args "window_id" = VStr w -> Str.nonempty w = true ->
        Tools.executeTool "smart_tile_state" args h tr =
          (Return (Tools.text_result
                     (match child_exec h tr
                              ("rm -f " ++ path_join h (tile_state_dir h) w) with
                      | Return _ => "Cleared state for window " ++ w
                      | Throw e => "Error clearing states: " ++ error_toString e
                      end)),
           (tr ++ [Exec ("rm -f " ++ path_join h (tile_state_dir h) w)])%list)).
Proof.
  intros args h tr Haction. split.
  - intros Hwid. run_handler.
    unfold Tools.smart_tile_state, bind, pathJoin, try_catch, execAsync.
    fold (tile_state_dir h). rewrite Haction, Hwid.
    cbn [strict_eq String.eqb Ascii.eqb Bool.eqb].
    destruct (child_exec h tr _) as [[out err]|e]; reflexivity.
  - intros w Hw Hne. run_handler.
    unfold Tools.smart_tile_state, bind, pathJoin, try_catch, execAsync.
    fold (tile_state_dir h). rewrite Haction, Hw.
    cbn [strict_eq String.eqb Ascii.eqb Bool.eqb truthy]. rewrite Hne.
    cbn [pathJoinVal pathJoin toString].
    destruct (child_exec h tr _) as [[out err]|e]; reflexivity.
Qed.

Lemma smart_tile_state_clear_witness :
  Tools.executeTool "smart_tile_state" [("action", VStr "clear")]
    (example_host [] (fun cmd => Throw (exit_failure cmd "Permission denied")))
    [] =
    (Return (Tools.text_result
               ("Error clearing states: Error: Command failed: " ++
                "rm -f /home/u/.fvwm/tile-state/*" ++ Str.nl ++
                "Permission denied")),
     [Exec "rm -f /home/u/.fvwm/tile-state/*"]).
Proof.
  apply (proj1 (smart_tile_state_clear [("action", VStr "clear")]
                  (example_host []
                     (fun cmd => Throw (exit_failure cmd "Permission denied")))
                  [] eq_refl)).
  reflexivity.
Defined.

(** ** Resources and their catalog *)

Lemma switch_ind_key {A} (P : A -> Prop) (x : string)
      (cs : list (string * A)) (d : A) :
  P d -> (forall k b, In (k, b) cs -> x = k -> P b) -> P (switch x cs d).
Proof.
  intros Hd. induction cs as [|[k b] cs IH]; simpl; intros Hcs; [exact Hd|].
  destruct (String.eqb_spec x k) as [->|_].
  - apply (Hcs k b); auto.
  - apply IH. intros k' b' Hin. apply Hcs. now right.
Qed.

Lemma readResource_as_catalogued (uri : string) :
  returns (as_catalogued uri) (Resources.readResource uri).
Proof.
  unfold Resources.readResource.
  apply returns_bind; intros home.
  apply returns_try_catch; [|intros; apply returns_throw].
  apply switch_ind_key; [apply returns_throw|].
  intros k b Hin ->. simpl in Hin.
  repeat (destruct Hin as [Hin|Hin];
          [injection Hin as <- <-;
           unfold Resources.file_resource, Resources.state_monitors,
             Resources.state_windows, Resources.state_current_desktop,
             Resources.state_tile_states, Resources.logs_smart_tile;
           repeat returns_step;
           eexists _, _; split; reflexivity|]).
  contradiction.
Qed.

(** X14. Whatever [readResource] returns for a uri is a single content
    block that repeats the uri and carries the mime type the catalog
    declares for that uri: the [case] bodies and the catalog agree on all
    fifteen resources. *)
Theorem readResource_matches_catalog :
  forall (uri : string) (h : Host) (tr tr' : list Call)
         (r : Resources.ReadResult),
    Resources.readResource uri h tr = (Return r, tr') ->
    exists mime txt,
      catalog_mimeType uri = Some mime /\
      Resources.contents r =
        [ {| Resources.c_uri := uri;
             Resources.c_mimeType := mime;
             Resources.c_text := txt |} ].
Proof.
  intros uri h tr tr' r Hrun.
  pose proof (readResource_as_catalogued uri h tr) as H.
  rewrite Hrun in H. exact H.
Qed.

Lemma readResource_matches_catalog_witness :
  exists mime txt,
    catalog_mimeType "fvwm://docs/readme" = Some mime /\
    Resources.contents
      (Resources.one_content "fvwm://docs/readme" "text/markdown" "# FVWM3") =
      [ {| Resources.c_uri := "fvwm://docs/readme";
           Resources.c_mimeType := mime;
           Resources.c_text := txt |} ].
Proof.
  apply (readResource_matches_catalog "fvwm://docs/readme"
           (readable_host (fun _ => "# FVWM3") (fun _ => Throw ENOENT))
           [] [ReadFile (VStr "/home/u/repo/utils/desktop-settings/fvwm3rc/README.md")]).
  reflexivity.
Defined.

(** ** The record of tile states *)

Section Records.

Lemma get_put_same (o : Obj) (k s : string) : get (put o k s) k = VStr s.
Proof.
  induction o as [|[k' v'] o IH]; simpl.
  - now rewrite String.eqb_refl.
  - destruct (String.eqb k' k) eqn:E; simpl; rewrite E; auto.
Qed.

Lemma get_put_other (o : Obj) (k k' s : string) :
  k <> k' -> get (put o k s) k' = get o k'.
Proof.
  intros Hne. induction o as [|[k0 v0] o IH]; simpl.
  - destruct (String.eqb_spec k k'); [contradiction | reflexivity].
  - destruct (String.eqb_spec k0 k) as [->|Hk]; simpl.
    + destruct (String.eqb_spec k k'); [contradiction | reflexivity].
    + destruct (String.eqb k0 k'); [reflexivity | exact IH].
Qed.

(** Lookup after assignment: the assigned name reads as the string,
    unless it is [__proto__]; any other name reads as before. *)
Lemma get_set_same (o : Obj) (k s : string) :
  k <> "__proto__" -> get (set o k s) k = VStr s.
Proof.
  intros Hk. unfold set.
  destruct (String.eqb_spec k "__proto__"); [contradiction|].
  apply get_put_same.
Qed.

Lemma get_set_other (o : Obj) (k k' s : string) :
  k <> k' \/ k = "__proto__" -> get (set o k s) k' = get o k'.
Proof.
  intros H. unfold set.
  destruct (String.eqb_spec k "__proto__") as [->|Hk]; [reflexivity|].
  destruct H as [H|H]; [now apply get_put_other | contradiction].
Qed.

Variable h : Host.
Variable content : string -> string.

Lemma fill_states_bound (f : string) (files : list string) (states : Obj) :
  f <> "__proto__" ->
  In f files \/ get states f = VStr (Str.trim (content f)) ->
  get (fill_states content files states) f = VStr (Str.trim (content f)).
Proof.
  intros Hf. unfold fill_states. revert states.
  induction files as [|file rest IH]; intros states H; simpl.
  - destruct H as [[]|H]; exact H.
  - apply IH. destruct (String.eqb_spec file f) as [->|Hne].
    + right. now apply get_set_same.
    + destruct H as [[Heq|Hin]|H]; [contradiction | now left |].
      right. rewrite get_set_other; auto.
Qed.

Lemma fill_states_unbound (k : string) (files : list string) (states : Obj) :
  ~ In k files \/ k = "__proto__" ->
  get (fill_states content files states) k = get states k.
Proof.
  unfold fill_states. revert states.
  induction files as [|file rest IH]; intros states H; simpl; [reflexivity|].
  rewrite IH by (destruct H as [H|H]; [left; intros Hin; apply H; now right
                                      | now right]).
  apply get_set_other.
  destruct (String.eqb_spec file k) as [->|Hne]; [|now left].
  destruct H as [H|H]; [exfalso; apply H; now left | now right].
Qed.

Lemma read_tile_states_readable :
  forall (files : list string) (states : Obj) (tr : list Call),
    listed_readable h (tile_state_dir h) (filter Str.nonempty files) content ->
    Resources.read_tile_states (tile_state_dir h) files states h tr =
      (Return (fill_states content (filter Str.nonempty files) states),
       app tr
         (map (fun f => ReadFile (VStr (path_join h (tile_state_dir h) f)))
            (filter Str.nonempty files))).
Proof.
  intros files.
  induction files as [|file rest IH]; intros states tr Hread; simpl.
  - now rewrite List.app_nil_r.
  - simpl in Hread. destruct (Str.nonempty file); [|now apply IH].
    unfold bind, pathJoin, readFile.
    rewrite (Hread file tr) by now left.
    rewrite IH by (intros f tr' Hin; apply Hread; now right).
    simpl. now rewrite <- List.app_assoc.
Qed.

End Records.

(** X15. Reading [fvwm://state/tile-states] when the listing succeeds and
    the listed files can be read: the text is the JSON of a record that
    binds every name of the listing that is not empty to the trimmed
    content of its file and binds nothing else; the listing is run once and
    each such name is read in the order of the listing.  A file called
    [__proto__] is read like the others but leaves no property in the
    record. *)
Theorem tile_states_record :
  forall (h : Host) (tr : list Call) (content : string -> string)
         (files err : string),
    child_exec h tr ("ls " ++ tile_state_dir h) = Return (files, err) ->
    listed_readable h (tile_state_dir h) (listed_files files) content ->
    exists states,
      Resources.readResource "fvwm://state/tile-states" h tr =
        (Return (Resources.one_content "fvwm://state/tile-states"
                   "application/json" (JSON_stringify h (VObj states))),
         (tr ++
          Exec ("ls " ++ tile_state_dir h) ::
          map (fun f => ReadFile (VStr (path_join h (tile_state_dir h) f)))
            (listed_files files))%list)
      /\ (forall f,
             In f (listed_files files) -> f <> "__proto__" ->
             get states f = VStr (Str.trim (content f)))
      /\ (forall k,
             ~ In k (listed_files files) \/ k = "__proto__" ->
             get states k = VUndefined).
Proof.
  intros h tr content files err Hls Hread.
  exists (fill_states content (listed_files files) []). repeat split.
  - run_handler.
    unfold Resources.state_tile_states, bind, pathJoin, try_catch, execAsync.
    fold (tile_state_dir h). rewrite Hls.
    rewrite (read_tile_states_readable h content _ _ _ Hread).
    unfold stringify, ret, listed_files. now rewrite <- List.app_assoc.
  - intros f Hin Hf. apply fill_states_bound; auto.
  - intros k Hk. now rewrite fill_states_unbound.
Qed.

Lemma tile_states_record_witness :
  exists states,
    Resources.readResource "fvwm://state/tile-states"
      (example_host
         [("/home/u/.fvwm/tile-state/0x1", " left ");
          ("/home/u/.fvwm/tile-state/__proto__", "top")]
         (fun _ => Return ("0x1" ++ Str.nl ++ "__proto__" ++ Str.nl,
                           EmptyString))) [] =
      (Return (Resources.one_content "fvwm://state/tile-states"
                 "application/json" ("json:" ++ sketch (VObj states))),
       [Exec "ls /home/u/.fvwm/tile-state";
        ReadFile (VStr "/home/u/.fvwm/tile-state/0x1");
        ReadFile (VStr "/home/u/.fvwm/tile-state/__proto__")])
    /\ (forall f,
           In f ["0x1"; "__proto__"] -> f <> "__proto__" ->
           get states f =
             VStr (Str.trim (if String.eqb f "0x1" then " left " else "top")))
    /\ (forall k,
           ~ In k ["0x1"; "__proto__"] \/ k = "__proto__" ->
           get states k = VUndefined).
Proof.
  apply (tile_states_record
           (example_host
              [("/home/u/.fvwm/tile-state/0x1", " left ");
               ("/home/u/.fvwm/tile-state/__proto__", "top")]
              (fun _ => Return ("0x1" ++ Str.nl ++ "__proto__" ++ Str.nl,
                                EmptyString)))
           [] (fun f => if String.eqb f "0x1" then " left " else "top")
           ("0x1" ++ Str.nl ++ "__proto__" ++ Str.nl) EmptyString).
  - reflexivity.
  - intros f tr Hin. vm_compute in Hin.
    destruct Hin as [<-|[<-|[]]]; reflexivity.
Defined.

(** X16. The windows resource always reports at least one window line:
    the output of the window manager is trimmed and split at the line
    feeds, which gives one entry more than there are line feeds, so an
    empty output gives the list holding one empty string. *)
Theorem state_windows_entries :
  forall (h : Host) (tr : list Call) (windowList err : string),
    child_exec h tr
      ("FvwmCommand " ++ Str.dq ++
       "All (CurrentPage) Echo $[w.id] $[w.name] $[w.x] $[w.y] $[w.width] $[w.height]" ++
       Str.dq) = Return (windowList, err) ->
    exists entries,
      Resources.readResource "fvwm://state/windows" h tr =
        (Return (Resources.one_content "fvwm://state/windows"
                   "application/json"
                   (JSON_stringify h
                      (VObj [("windows", VArr (map VStr entries))]))),
         (tr ++
          [Exec ("FvwmCommand " ++ Str.dq ++
                 "All (CurrentPage) Echo $[w.id] $[w.name] $[w.x] $[w.y] $[w.width] $[w.height]" ++
                 Str.dq)])%list)
      /\ length entries = S (Str.count "010"%char (Str.trim windowList))
      /\ Str.join Str.nl entries = Str.trim windowList.
Proof.
  intros h tr windowList err Hexec.
  exists (Str.split "010"%char (Str.trim windowList)). repeat split.
  - run_handler.
    unfold Resources.state_windows, bind, execAsync. rewrite Hexec.
    reflexivity.
  - apply split_length.
  - apply join_split.
Qed.

Lemma state_windows_entries_witness :
  exists entries,
    Resources.readResource "fvwm://state/windows"
      (example_host [] (fun _ => Return (EmptyString, EmptyString))) [] =
      (Return (Resources.one_content "fvwm://state/windows"
                 "application/json"
                 ("json:" ++
                  sketch (VObj [("windows", VArr (map VStr entries))]))),
       [Exec ("FvwmCommand " ++ Str.dq ++
              "All (CurrentPage) Echo $[w.id] $[w.name] $[w.x] $[w.y] $[w.width] $[w.height]" ++
              Str.dq)])
    /\ length entries = 1%nat
    /\ Str.join Str.nl entries = EmptyString.
Proof.
  apply (state_windows_entries
           (example_host [] (fun _ => Return (EmptyString, EmptyString)))
           [] EmptyString EmptyString).
  reflexivity.
Defined.

(** ** Prompts *)

Lemma prompt_cases_render (args : option Obj) :
  Forall renders (map snd (Prompts.cases args)).
Proof.
  unfold renders, returns.
  repeat constructor; intros;
    unfold Prompts.create_window_function, Prompts.add_keybinding,
      Prompts.create_tiling_script, Prompts.debug_fvwm_issue,
      Prompts.create_menu, Prompts.destructure, Prompts.menu_items_split,
      bind, render, ret, throw;
    destruct args as [o|]; cbn [fst snd]; try reflexivity; eauto;
    try (destruct (get o "menu_items"); cbn [fst snd]; try reflexivity; eauto);
    repeat match goal with
           | |- context [match toString ?v with _ => _ end] =>
               destruct (toString v); cbn [fst snd]; try reflexivity; eauto
           end.
Qed.

(** X17. [getPrompt] is a pure renderer: for every name and arguments it
    calls no adapter, its outcome is the same on every host and after any
    calls, and whatever it returns is exactly one message, of role [user]
    and type [text]. *)
Theorem getPrompt_renders :
  forall (name : string) (args : option Obj),
    (forall h tr, snd (Prompts.getPrompt name args h tr) = tr)
    /\ (forall h tr h' tr',
           fst (Prompts.getPrompt name args h tr) =
           fst (Prompts.getPrompt name args h' tr'))
    /\ (forall h tr r tr',
           Prompts.getPrompt name args h tr = (Return r, tr') ->
           exists txt,
             Prompts.messages r =
               [ {| Prompts.role := "user";
                    Prompts.content :=
                      {| Prompts.type := "text"; Prompts.text := txt |} |} ]).
Proof.
  intros name args.
  assert (renders (Prompts.getPrompt name args)) as [Hsilent [Hpure Hone]].
  { unfold Prompts.getPrompt. apply switch_ind.
    - unfold renders, returns, throw. repeat split; intros; exact I.
    - apply prompt_cases_render. }
  repeat split; auto.
  intros h tr r tr' Hrun. specialize (Hone h tr). rewrite Hrun in Hone.
  destruct Hone as [txt ->]. now exists txt.
Qed.

Lemma getPrompt_renders_witness :
  exists txt,
    Prompts.messages
      (Prompts.user_message
         (Str.join Str.nl
            (Prompts.menu_head "Ops" :: "1. Close" :: Prompts.menu_tail))) =
      [ {| Prompts.role := "user";
           Prompts.content :=
             {| Prompts.type := "text"; Prompts.text := txt |} |} ].
Proof.
  apply (proj2 (proj2 (getPrompt_renders "create-menu"
                         (Some [("menu_name", VStr "Ops");
                                ("menu_items", VStr "Close")])))
           (example_host [] (fun _ => Throw ENOENT)) [] _ []).
  reflexivity.
Defined.

Lemma executeTool_returns (name : string) (args : Obj) (h : Host)
      (tr : list Call) :
  exists r tr',
    Tools.executeTool name args h tr = (Return r, tr') /\ well_formed r.
Proof.
  unfold Tools.executeTool, bind, homedir.
  set (body := switch name (Tools.cases (os_homedir h) args)
                 (throw (Error ("Unknown tool: " ++ name)))).
  assert (returns well_formed body) as Hbody
    by (apply switch_ind; [apply returns_throw | apply tool_cases_wf]).
  specialize (Hbody h tr). unfold try_catch, ret.
  destruct (body h tr) as [[r|e] tr']; simpl in Hbody.
  - now exists r, tr'.
  - eexists _, _. split; [reflexivity|]. now eexists.
Qed.

(** X18. The get-prompt handler passes the arguments on as they are: a
    request for a prompt of the catalog that carries no arguments fails
    with a [TypeError] raised by the destructuring, for each of the five
    prompts.  The call-tool handler, for every tool name, replaces missing
    arguments by the empty mapping and answers with a tool result. *)
Theorem getPrompt_without_arguments :
  (forall (name : string) (h : Host) (tr : list Call),
      In name prompt_names ->
      exists e,
        ename e = "TypeError" /\
        Server.handle (Server.GetPromptRequest name None) h tr = (Throw e, tr))
  /\ (forall (name : string) (h : Host) (tr : list Call),
         Server.handle (Server.CallToolRequest name None) h tr =
           Server.handle (Server.CallToolRequest name (Some [])) h tr
         /\ exists r tr',
             Server.handle (Server.CallToolRequest name None) h tr =
               (Return (Server.ToolCalled r), tr')).
Proof.
  split.
  - intros name h tr Hin. vm_compute in Hin.
    repeat (destruct Hin as [<-|Hin]); try contradiction;
      eexists; (split; [|reflexivity]); reflexivity.
  - intros name h tr. split; [reflexivity|].
    unfold Server.handle, bind. cbn [Server.arguments_or_empty].
    destruct (executeTool_returns name [] h tr) as [r [tr' [Hrun _]]].
    rewrite Hrun. now exists r, tr'.
Qed.

Lemma getPrompt_without_arguments_witness :
  exists e,
    ename e = "TypeError" /\
    Server.handle (Server.GetPromptRequest "debug-fvwm-issue" None)
      (example_host [] (fun _ => Throw ENOENT)) [] = (Throw e, []).
Proof.
  apply (proj1 getPrompt_without_arguments "debug-fvwm-issue").
  vm_compute. tauto.
Defined.

(** X19. The [context] of [add-keybinding] defaults to [A] only when it is
    absent: without it the prompt is the one for the context [A], while a
    [null] context is not replaced and renders as the text [null]. *)
Theorem add_keybinding_context_default :
  forall (o : Obj) (h : Host) (tr : list Call),
    (absent o "context" ->
     Prompts.getPrompt "add-keybinding" (Some o) h tr =
       Prompts.getPrompt "add-keybinding" (Some (("context", VStr "A") :: o))
         h tr)
    /\ (get o "context" = VNull ->
        Prompts.getPrompt "add-keybinding" (Some o) h tr =
          Prompts.getPrompt "add-keybinding"
            (Some (("context", VStr "null") :: o)) h tr).
Proof.
  intros o h tr. unfold absent.
  split; intros H; run_handler;
    unfold Prompts.add_keybinding, Prompts.destructure, bind, ret;
    cbn [get String.eqb Ascii.eqb Bool.eqb]; rewrite H; reflexivity.
Qed.

Lemma add_keybinding_context_default_witness :
  Prompts.getPrompt "add-keybinding"
    (Some [("key_combo", VStr "Super_L+m"); ("action", VStr "maximizes")])
    (example_host [] (fun _ => Throw ENOENT)) [] =
  Prompts.getPrompt "add-keybinding"
    (Some [("context", VStr "A");
           ("key_combo", VStr "Super_L+m"); ("action", VStr "maximizes")])
    (example_host [] (fun _ => Throw ENOENT)) [].
Proof.
  apply (proj1 (add_keybinding_context_default
                  [("key_combo", VStr "Super_L+m"); ("action", VStr "maximizes")]
                  (example_host [] (fun _ => Throw ENOENT)) [])).
  reflexivity.
Defined.

(** ** The items of a menu *)

Section TrimFacts.

Lemma trimStart_head (s : string) (c : ascii) (r : string) :
  Str.trimStart s = String c r -> Str.is_ws c = false.
Proof.
  induction s as [|a s IH]; simpl; [discriminate|].
  destruct (Str.is_ws a) eqn:Ha; [exact IH|].
  intros H. injection H as <- _. exact Ha.
Qed.

Lemma trimStart_fixed (c : ascii) (r : string) :
  Str.is_ws c = false -> Str.trimStart (String c r) = String c r.
Proof. intros Hc. simpl. now rewrite Hc. Qed.

Lemma trimEnd_head (c : ascii) (r : string) :
  Str.is_ws c = false -> exists r', Str.trimEnd (String c r) = String c r'.
Proof.
  intros Hc. simpl. destruct (Str.trimEnd r); rewrite ?Hc; eauto.
Qed.

Lemma trimEnd_idempotent (s : string) :
  Str.trimEnd (Str.trimEnd s) = Str.trimEnd s.
Proof.
  induction s as [|c r IH]; simpl; [reflexivity|].
  destruct (Str.trimEnd r) as [|b t] eqn:E.
  - destruct (Str.is_ws c) eqn:Hc; simpl; [reflexivity | now rewrite Hc].
  - change (Str.trimEnd (String c (String b t)))
      with (match Str.trimEnd (String b t) with
            | EmptyString =>
                if Str.is_ws c then EmptyString else String c EmptyString
            | r' => String c r'
            end).
    now rewrite IH.
Qed.

Lemma trim_idempotent (s : string) : Str.trim (Str.trim s) = Str.trim s.
Proof.
  unfold Str.trim. destruct (Str.trimStart s) as [|c r] eqn:E; [reflexivity|].
  apply trimStart_head in E.
  destruct (trimEnd_head c r E) as [r' Hr'].
  rewrite Hr', (trimStart_fixed c r' E), <- Hr'.
  apply trimEnd_idempotent.
Qed.

Lemma split_parts_clean (sep : ascii) (s : string) :
  Forall (fun part => Str.count sep part = 0%nat) (Str.split sep s).
Proof.
  induction s as [|c r IH]; simpl; [repeat constructor|].
  destruct (Ascii.eqb c sep) eqn:Hc; [constructor; auto|].
  destruct (Str.split sep r) as [|part parts]; simpl.
  - repeat constructor. simpl. now rewrite Hc.
  - inversion IH; subst. constructor; [|assumption].
    simpl. rewrite Hc. assumption.
Qed.

End TrimFacts.

(** X20. The list of the create-menu prompt has one numbered line more
    than [menu_items] has commas, so an empty [menu_items] still gives the
    line [1. ] with an empty item; every item is free of commas and is
    trimmed for good: trimming it again changes nothing. *)
Theorem create_menu_items :
  forall (s : string),
    length (Prompts.numbered (map Str.trim (Str.split ","%char s)) 0) =
      S (Str.count ","%char s)
    /\ Forall (fun item =>
                 Str.trim item = item /\ Str.count ","%char item = 0%nat)
         (map Str.trim (Str.split ","%char s)).
Proof.
  intros s. split.
  - now rewrite numbered_length, length_map, split_length.
  - apply Forall_map.
    eapply Forall_impl; [|apply (split_parts_clean ","%char s)].
    intros part Hpart. split.
    + apply trim_idempotent.
    + now rewrite count_trim.
Qed.

(** ** The call-tool handler *)

(** X21. The call-tool handler of the server never faults: for every tool
    name, known or not, and for arguments that are present or missing, the
    request is answered by a tool result holding one text block. *)
Theorem call_tool_never_faults :
  forall (name : string) (arguments : option Obj) (h : Host) (tr : list Call),
    exists txt flag tr',
      Server.handle (Server.CallToolRequest name arguments) h tr =
        (Return (Server.ToolCalled
                   {| Tools.content :=
                        [ {| Tools.type := "text"; Tools.text := txt |} ];
                      Tools.isError := flag |}),
         tr').
Proof.
  intros name arguments h tr. unfold Server.handle, bind.
  destruct (executeTool_returns name (Server.arguments_or_empty arguments) h tr)
    as [[c flag] [tr' [Hrun [txt Htxt]]]].
  rewrite Hrun. simpl in Htxt. subst c. now exists txt, flag, tr'.
Qed.

(** ** Window information *)

(** X22. [fvwm_get_window_info] runs one FvwmCommand: for a [window_id]
    that is absent or falsy (the empty string, 0) it lists all windows of
    the current page; for a truthy [window_id] that renders as the text
    [w] it addresses the window by [w], put into the command line as it
    is.  On success the text is the output, or [No windows found] for an
    empty output.  For a truthy [window_id] whose conversion to text
    throws, no process is run and the result is the [isError] envelope of
    that [TypeError]. *)
Theorem fvwm_get_window_info_command :
  forall (args : Obj) (h : Host) (tr : list Call),
    (forall cmd,
        (truthy (get args "window_id") = false /\ cmd = all_windows_command) \/
        (truthy (get args "window_id") = true /\
         exists w, toString (get args "window_id") = Some w /\
                   cmd = window_command w) ->
        exists r,
          Tools.executeTool "fvwm_get_window_info" args h tr =
            (Return r, (tr ++ [Exec cmd])%list)
          /\ (forall stdout stderr,
                 child_exec h tr cmd = Return (stdout, stderr) ->
                 r = Tools.text_result
                       (if Str.nonempty stdout then stdout
                        else "No windows found")))
    /\ (truthy (get args "window_id") = true ->
        toString (get args "window_id") = None ->
        Tools.executeTool "fvwm_get_window_info" args h tr =
          (Return (conversion_envelope "fvwm_get_window_info"), tr)).
Proof.
  intros args h tr. split.
  - intros cmd Hcmd. run_handler.
    unfold Tools.fvwm_get_window_info, bind, execAsync, render.
    destruct Hcmd as [[Hfalsy ->] | [Htruthy [w [Hw ->]]]].
    + rewrite Hfalsy. cbn [ret]. fold all_windows_command.
      destruct (child_exec h tr all_windows_command) as [[out err]|e]; cbn.
      * eexists. split; [reflexivity|]. intros stdout stderr H.
        injection H as <- <-. reflexivity.
      * eexists. split; [reflexivity|]. discriminate.
    + rewrite Htruthy, Hw. cbn [ret]. fold (window_command w).
      destruct (child_exec h tr (window_command w)) as [[out err]|e]; cbn.
      * eexists. split; [reflexivity|]. intros stdout stderr H.
        injection H as <- <-. reflexivity.
      * eexists. split; [reflexivity|]. discriminate.
  - intros Htruthy Hnone. run_handler.
    unfold Tools.fvwm_get_window_info, bind, render.
    rewrite Htruthy, Hnone. reflexivity.
Qed.

Lemma fvwm_get_window_info_command_witness :
  exists r,
    Tools.executeTool "fvwm_get_window_info" [("window_id", VStr EmptyString)]
      (example_host [] (fun _ => Return (EmptyString, EmptyString))) [] =
      (Return r, [Exec all_windows_command])
    /\ r = Tools.text_result "No windows found".
Proof.
  destruct (proj1 (fvwm_get_window_info_command
                     [("window_id", VStr EmptyString)]
                     (example_host [] (fun _ => Return (EmptyString, EmptyString)))
                     [])
              all_windows_command (or_introl (conj eq_refl eq_refl)))
    as [r [Hrun Hout]].
  exists r. split; [exact Hrun|].
  apply (Hout EmptyString EmptyString). reflexivity.
Defined.

(** ** Catalogs and dispatch *)

(** X23. Catalog and dispatch agree: the [case] labels of [executeTool],
    [readResource] and [getPrompt] are, in the same order, the names of
    [getTools], the uris of [getResources] and the names of [getPrompts];
    every listed entry has a handler, and nothing else has one. *)
Theorem dispatch_labels_are_catalog_keys :
  forall (home uri : string) (args : Obj) (pargs : option Obj),
    map fst (Tools.cases home args) = map Tools.name Tools.getTools
    /\ map fst (Resources.cases home uri) =
       map Resources.uri Resources.getResources
    /\ map fst (Prompts.cases pargs) = map Prompts.name Prompts.getPrompts.
Proof. intros. repeat split. Qed.

(** ** Handlers read the declared arguments only *)

Lemma switch_ext {A} (x : string) (cs cs' : list (string * A)) (d : A) :
  map fst cs = map fst cs' ->
  (forall k b b', In (k, (b, b')) (combine (map fst cs) (combine (map snd cs) (map snd cs'))) ->
                  x = k -> b = b') ->
  switch x cs d = switch x cs' d.
Proof.
  revert cs'. induction cs as [|[k b] cs IH]; intros [|[k' b'] cs'] Hk Hb;
    simpl in *; try discriminate; [reflexivity|].
  injection Hk as <- Hk.
  destruct (String.eqb_spec x k) as [->|_].
  - apply (Hb k b b'); auto.
  - apply IH; [assumption|]. intros k0 b0 b0' Hin. apply Hb. now right.
Qed.

(** X24. A tool reads no more of its arguments than the properties its
    input schema declares: two argument mappings that agree on the declared
    properties of a tool get the same answer and the same adapter calls,
    on every host. *)
Theorem executeTool_reads_declared :
  forall (name : string) (args args' : Obj) (h : Host) (tr : list Call),
    agree_on (tool_properties name) args args' ->
    Tools.executeTool name args h tr = Tools.executeTool name args' h tr.
Proof.
  intros name args args' h tr Hagree.
  unfold Tools.executeTool, bind, homedir, try_catch.
  replace (switch name (Tools.cases (os_homedir h) args')
             (throw (Error ("Unknown tool: " ++ name))))
    with (switch name (Tools.cases (os_homedir h) args)
            (throw (Error ("Unknown tool: " ++ name)))); [reflexivity|].
  apply switch_ext; [reflexivity|].
  intros k b b' Hin ->. unfold agree_on in Hagree. simpl in Hin.
  repeat (destruct Hin as [Hin|Hin];
          [injection Hin as <- <- <-;
           cbn in Hagree;
           unfold Tools.fvwm_execute, Tools.fvwm_get_window_info,
             Tools.fvwm_test_function, Tools.fvwm_validate_config,
             Tools.fvwm_get_keybindings, Tools.smart_tile_debug,
             Tools.smart_tile_state;
           rewrite ?(Hagree "command"), ?(Hagree "window_id"),
             ?(Hagree "function_name"), ?(Hagree "config_path"),
             ?(Hagree "filter"), ?(Hagree "lines"), ?(Hagree "action")
             by tauto;
           reflexivity|]).
  contradiction.
Qed.

Lemma executeTool_reads_declared_witness :
  Tools.executeTool "smart_tile_debug"
    [("lines", VNum true "5"); ("verbose", VBool true)]
    (example_host [] (fun _ => Throw ENOENT)) [] =
  Tools.executeTool "smart_tile_debug" [("lines", VNum true "5")]
    (example_host [] (fun _ => Throw ENOENT)) [].
Proof.
  apply (executeTool_reads_declared "smart_tile_debug").
  intros k Hk. vm_compute in Hk. destruct Hk as [<-|[]]. reflexivity.
Defined.

(** X25. A prompt reads no more of its arguments than the catalog
    declares for it: two argument mappings that agree on the declared
    arguments of a prompt are rendered alike. *)
Theorem getPrompt_reads_declared :
  forall (name : string) (o o' : Obj) (h : Host) (tr : list Call),
    agree_on (prompt_arguments name) o o' ->
    Prompts.getPrompt name (Some o) h tr = Prompts.getPrompt name (Some o') h tr.
Proof.
  intros name o o' h tr Hagree. unfold Prompts.getPrompt.
  replace (switch name (Prompts.cases (Some o'))
             (throw (Error ("Unknown prompt: " ++ name))))
    with (switch name (Prompts.cases (Some o))
            (throw (Error ("Unknown prompt: " ++ name)))); [reflexivity|].
  apply switch_ext; [reflexivity|].
  intros k b b' Hin ->. unfold agree_on in Hagree. simpl in Hin.
  repeat (destruct Hin as [Hin|Hin];
          [injection Hin as <- <- <-;
           cbn in Hagree;
           unfold Prompts.create_window_function, Prompts.add_keybinding,
             Prompts.create_tiling_script, Prompts.debug_fvwm_issue,
             Prompts.create_menu, Prompts.destructure, bind, ret;
           rewrite ?(Hagree "function_name"), ?(Hagree "description"),
             ?(Hagree "key_combo"), ?(Hagree "action"), ?(Hagree "context"),
             ?(Hagree "script_name"), ?(Hagree "tiling_behavior"),
             ?(Hagree "issue_description"), ?(Hagree "menu_name"),
             ?(Hagree "menu_items")
             by tauto;
           reflexivity|]).
  contradiction.
Qed.

Lemma getPrompt_reads_declared_witness :
  Prompts.getPrompt "debug-fvwm-issue"
    (Some [("issue_description", VStr "no tiling"); ("urgent", VBool true)])
    (example_host [] (fun _ => Throw ENOENT)) [] =
  Prompts.getPrompt "debug-fvwm-issue"
    (Some [("issue_description", VStr "no tiling")])
    (example_host [] (fun _ => Throw ENOENT)) [].
Proof.
  apply (getPrompt_reads_declared "debug-fvwm-issue").
  intros k Hk. vm_compute in Hk. destruct Hk as [<-|[]]. reflexivity.
Defined.
